(** * axiomgfx-demo: the molecule resolution chain and the structure-file proxy

    A shallow embedding of the two Next.js route modules held by
    [src/frontend/src/app/api/molecule/resolve/route.ts]: the resolve route
    ([POST /api/molecule/resolve]: catalog, OPSIN, CIR, mock fallback; the
    PubChem step is commented out in the source) and the structure-file
    proxy ([GET /api/molecule/sdf]).

    Conventions of the embedding.
    - A JavaScript string is a [string] holding its UTF-8 bytes, so only
      well-formed Unicode text is represented; the [URIError] that
      [encodeURIComponent] raises on an unpaired surrogate is outside the
      model.
    - A JavaScript number is carried as a rational [Q]; the handlers never
      compute with numbers, they only copy them and test their truthiness.
    - [await fetch(...)] is the one effect of the handlers; a handler is a
      tree of fetches ([Prog]) whose leaves are JavaScript completions
      (normal, [return], [throw]).  [console.log] and friends only write to
      the server log and are left out.
    - [NextResponse.json] is the library's, not the repository's; it is
      modelled after the Fetch standard, which it follows: it throws when
      the value has no JSON text ([undefined], a function), when the status
      is outside 200..599, and when the status is one that allows no body
      (204, 205, 304).  The handlers call it inside their [try] blocks, so
      these exceptions reach their [catch].
    - What the JavaScript engine computes from tables that are not part of
      the repository (Unicode lower-casing, [ToString] of a non-string) is an
      [Engine] the development is parametric in. *)

From Stdlib Require Import String Ascii List NArith ZArith QArith Bool Lia DecimalString.
Set Warnings "-register-all".
Import ListNotations.

Local Open Scope string_scope.
Local Open Scope list_scope.

(** ** JavaScript strings *)

Module JsString.

Definition code (a : ascii) : N := N_of_ascii a.

(** One-byte members of WhiteSpace and LineTerminator:
    TAB, LF, VT, FF, CR, SP. *)
Definition ws1 (a : ascii) : bool :=
  let n := code a in
  ((9 <=? n) && (n <=? 13) || (n =? 32))%N.

(** U+00A0 is C2 A0. *)
Definition ws2 (a b : ascii) : bool :=
  ((code a =? 194) && (code b =? 160))%N.

(** U+1680 (E1 9A 80), U+2000..U+200A (E2 80 80..8A), U+2028, U+2029
    (E2 80 A8, A9), U+202F (E2 80 AF), U+205F (E2 81 9F),
    U+3000 (E3 80 80), U+FEFF (EF BB BF). *)
Definition ws3 (a b c : ascii) : bool :=
  let x := code a in
  let y := code b in
  let z := code c in
  ((x =? 225) && (y =? 154) && (z =? 128)
   || (x =? 226) && (y =? 128)
      && ((128 <=? z) && (z <=? 138) || (z =? 168) || (z =? 169) || (z =? 175))
   || (x =? 226) && (y =? 129) && (z =? 159)
   || (x =? 227) && (y =? 128) && (z =? 128)
   || (x =? 239) && (y =? 187) && (z =? 191))%N.

(** [String.prototype.trimStart]: drop white space characters from the
    front, one character (one to three bytes) at a time. *)
Fixpoint trimStart (s : string) : string :=
  match s with
  | EmptyString => EmptyString
  | String a r1 =>
      if ws1 a then trimStart r1
      else
        match r1 with
        | EmptyString => s
        | String b r2 =>
            if ws2 a b then trimStart r2
            else
              match r2 with
              | EmptyString => s
              | String c r3 => if ws3 a b c then trimStart r3 else s
              end
        end
  end.

Definition isEmpty (s : string) : bool :=
  match s with EmptyString => true | String _ _ => false end.

(** [String.prototype.trimEnd]: drop the longest suffix made of white
    space characters only. *)
Fixpoint trimEnd (s : string) : string :=
  match s with
  | EmptyString => EmptyString
  | String a r => if isEmpty (trimStart s) then EmptyString else String a (trimEnd r)
  end.

(** [String.prototype.trim]. *)
Definition trim (s : string) : string := trimEnd (trimStart s).

(** [String.prototype.includes]: [p] occurs in [s]. *)
Fixpoint includes (s p : string) : bool :=
  prefix p s
  || match s with
     | EmptyString => false
     | String _ r => includes r p
     end.

(** The characters [encodeURIComponent] leaves alone: the ASCII letters and
    digits, and the marks with codes 45, 95, 46, 33, 126, 42, 39, 40, 41
    (hyphen, underscore, dot, exclamation mark, tilde, asterisk, apostrophe
    and the two round brackets). *)
Definition unreserved (a : ascii) : bool :=
  let n := code a in
  ((65 <=? n) && (n <=? 90) || (97 <=? n) && (n <=? 122)
   || (48 <=? n) && (n <=? 57)
   || (n =? 45) || (n =? 95) || (n =? 46) || (n =? 33) || (n =? 126)
   || (n =? 42) || (n =? 39) || (n =? 40) || (n =? 41))%N.

Definition hexDigit (n : N) : ascii :=
  ascii_of_N (if (n <? 10)%N then 48 + n else 55 + n)%N.

Definition percent (a : ascii) : string :=
  String "%" (String (hexDigit (code a / 16)) (String (hexDigit (code a mod 16)) EmptyString)).

(** [encodeURIComponent] on well-formed text: every byte of the UTF-8
    encoding that is not unreserved becomes %XX. *)
Fixpoint encodeURIComponent (s : string) : string :=
  match s with
  | EmptyString => EmptyString
  | String a r =>
      if unreserved a then String a (encodeURIComponent r)
      else percent a ++ encodeURIComponent r
  end.

(** Lower-casing of the ASCII letters, every other byte kept. *)
Definition asciiLower (a : ascii) : ascii :=
  let n := code a in
  if ((65 <=? n) && (n <=? 90))%N then ascii_of_N (n + 32) else a.

Fixpoint asciiToLowerCase (s : string) : string :=
  match s with
  | EmptyString => EmptyString
  | String a r => String (asciiLower a) (asciiToLowerCase r)
  end.

(** The bytes that occur in the encodings of the white space characters. *)
Definition wsByte (a : ascii) : bool :=
  let n := code a in
  ((9 <=? n) && (n <=? 13) || (n =? 32)
   || (128 <=? n) && (n <=? 138) || (n =? 154) || (n =? 159) || (n =? 160)
   || (n =? 168) || (n =? 169) || (n =? 175) || (n =? 187) || (n =? 191)
   || (n =? 194) || (n =? 225) || (n =? 226) || (n =? 227) || (n =? 239))%N.

Fixpoint allWs (s : string) : bool :=
  match s with
  | EmptyString => true
  | String a r => wsByte a && allWs r
  end.

Fixpoint noWs (s : string) : bool :=
  match s with
  | EmptyString => true
  | String a r => negb (wsByte a) && noWs r
  end.

End JsString.

(** ** JavaScript values *)

(** What [JSON.parse] produces.  The fields of [JObj] are the own properties
    of the parsed object, each name once. *)
Inductive Json : Type :=
| JNull
| JBool (b : bool)
| JNum (q : Q)
| JStr (s : string)
| JArr (items : list Json)
| JObj (fields : list (string * Json)).

(** The values the handlers meet: parsed JSON, [undefined], and the members
    every object literal inherits from [Object.prototype] (functions, and
    the prototype object itself under [__proto__]). *)
Inductive JsVal : Type :=
| Undefined
| FromJson (j : Json)
| Builtin (member : string).

Coercion FromJson : Json >-> JsVal.

(** ToBoolean. *)
Definition truthy (v : JsVal) : bool :=
  match v with
  | Undefined | FromJson JNull => false
  | FromJson (JBool b) => b
  | FromJson (JNum q) => negb (Qnum q =? 0)%Z
  | FromJson (JStr s) => negb (JsString.isEmpty s)
  | FromJson (JArr _) | FromJson (JObj _) | Builtin _ => true
  end.

(** The own property names of [Object.prototype]; every one of them holds a
    truthy value. *)
Definition Object_prototype_members : list string :=
  [ "constructor"; "__defineGetter__"; "__defineSetter__"; "hasOwnProperty";
    "__lookupGetter__"; "__lookupSetter__"; "isPrototypeOf";
    "propertyIsEnumerable"; "toString"; "valueOf"; "__proto__";
    "toLocaleString" ].

Definition inherited (key : string) : bool :=
  existsb (String.eqb key) Object_prototype_members.

Fixpoint own {V : Type} (fields : list (string * V)) (key : string) : option V :=
  match fields with
  | [] => None
  | (k, v) :: rest => if String.eqb k key then Some v else own rest key
  end.

(** What [object[key]] finds on a plain object whose own properties are
    [fields]: an own property, a member inherited from [Object.prototype],
    or nothing ([undefined]). *)
Inductive Slot (V : Type) : Type :=
| Own (v : V)
| Inherited (member : string)
| Absent.
Arguments Own {V} v.
Arguments Inherited {V} member.
Arguments Absent {V}.

Definition object_get {V : Type} (fields : list (string * V)) (key : string) : Slot V :=
  match own fields key with
  | Some v => Own v
  | None => if inherited key then Inherited key else Absent
  end.

(** What the engine computes from tables the repository does not hold. *)
Class Engine : Type := {
  (** [String.prototype.toLowerCase] *)
  toLowerCase : string -> string;
  (** [ToString] of a value that is not a string; [None] when it throws a
      [TypeError] *)
  ToString_other : JsVal -> option string
}.

Definition ToString {E : Engine} (v : JsVal) : option string :=
  match v with
  | FromJson (JStr s) => Some s
  | _ => ToString_other v
  end.

(** An engine for closed examples: ASCII lower-casing, and [ToString] of
    the values whose text is short to write down. *)
Definition ascii_engine : Engine := {|
  toLowerCase := JsString.asciiToLowerCase;
  ToString_other v :=
    match v with
    | Undefined => Some "undefined"
    | FromJson JNull => Some "null"
    | FromJson (JBool true) => Some "true"
    | FromJson (JBool false) => Some "false"
    | FromJson (JNum (Qmake z 1)) => Some (NilZero.string_of_int (Z.to_int z))
    | _ => None
    end
|}.

(** ** Requests, responses and the upstream *)

(** The body the resolve handler answers with. *)
Record MoleculeResolveResponse : Type := {
  source : string;
  name : string;
  cid : JsVal;
  smiles : JsVal;
  inchi : JsVal;
  sdf3d_url : string;
  molecular_formula : JsVal;
  molecular_weight : JsVal
}.

(** The body of a response: the JSON of an identity, of [{ error }] or of
    another value, the text of a structure file, or none. *)
Inductive Body : Type :=
| JsonIdentity (r : MoleculeResolveResponse)
| JsonError (message : string)
| JsonValue (v : JsVal)
| Text (s : string)
| NoBody.

Record NextResponse : Type := {
  status : Z;
  headers : list (string * string);
  body : Body
}.

(** The response that [NextResponse.json(body, { status })] builds when it
    builds one; without [init] the status is 200.  The headers the library
    adds on its own are not listed. *)
Definition jsonResponse (b : Body) (st : Z) : NextResponse :=
  {| status := st; headers := []; body := b |}.

(** [JSON.stringify] has a text for the body: it has none for [undefined]
    and none for a function, and it writes [Object.prototype], the one
    inherited member that is no function, as the empty object. *)
Definition hasJsonText (b : Body) : bool :=
  match b with
  | JsonValue Undefined => false
  | JsonValue (Builtin member) => String.eqb member "__proto__"
  | NoBody => false
  | JsonIdentity _ | JsonError _ | JsonValue (FromJson _) | Text _ => true
  end.

(** The statuses of the Fetch standard that allow no body. *)
Definition nullBodyStatus (st : Z) : bool :=
  ((st =? 101) || (st =? 103) || (st =? 204) || (st =? 205) || (st =? 304))%Z.

(** The statuses a [Response] with a body can be made with. *)
Definition Response_accepts (st : Z) : bool :=
  ((200 <=? st) && (st <=? 599))%Z && negb (nullBodyStatus st).

(** What [fetch] resolves to: the status line, and what reading the body
    with [text()] and with [json()] gives ([None]: the promise rejects).
    A handler reads the body of a response at most once, by one of the
    two. *)
Record FetchResponse : Type := {
  fstatus : Z;
  statusText : string;
  text : option string;
  json : option Json
}.

(** [response.ok] *)
Definition ok (r : FetchResponse) : bool :=
  ((200 <=? fstatus r) && (fstatus r <=? 299))%Z.

Inductive FetchOutcome : Type :=
| Rejected
| Resolved (r : FetchResponse).

(** What a [catch] receives; the handlers only log it. *)
Inductive JsError : Type :=
| TypeError
| RangeError
| SyntaxError
| FetchError.

(** How a block of statements ends. *)
Inductive Completion (A : Type) : Type :=
| Normal (a : A)
| Return (r : NextResponse)
| Throw (e : JsError).
Arguments Normal {A} a.
Arguments Return {A} r.
Arguments Throw {A} e.

(** A computation that awaits fetches. *)
Inductive Prog (A : Type) : Type :=
| Ret (a : A)
| Fetch (url : string) (init : list (string * string)) (k : FetchOutcome -> Prog A).
Arguments Ret {A} a.
Arguments Fetch {A} url init k.

Definition Js (A : Type) : Type := Prog (Completion A).

Definition pure {A : Type} (a : A) : Js A := Ret (Normal a).
Definition return_ {A : Type} (r : NextResponse) : Js A := Ret (Return r).
Definition throw {A : Type} (e : JsError) : Js A := Ret (Throw e).

Fixpoint bind {A B : Type} (c : Js A) (f : A -> Js B) : Js B :=
  match c with
  | Ret (Normal a) => f a
  | Ret (Return r) => Ret (Return r)
  | Ret (Throw e) => Ret (Throw e)
  | Fetch url init k => Fetch url init (fun o => bind (k o) f)
  end.

(** [try { c } catch (error) { handler }] *)
Fixpoint try_catch {A : Type} (c : Js A) (handler : JsError -> Js A) : Js A :=
  match c with
  | Ret (Throw e) => handler e
  | Ret done => Ret done
  | Fetch url init k => Fetch url init (fun o => try_catch (k o) handler)
  end.

Declare Scope js_scope.
Delimit Scope js_scope with js.
Notation "x <- c ;; k" := (bind c (fun x => k))
  (at level 61, c at next level, right associativity) : js_scope.
Notation "c ;; k" := (bind c (fun _ => k))
  (at level 61, right associativity) : js_scope.

(** What [Response] throws at a status it does not accept: a [RangeError]
    outside 200..599, a [TypeError] at a status that allows no body. *)
Definition Response_refusal (st : Z) : JsError :=
  if ((200 <=? st) && (st <=? 599))%Z then TypeError else RangeError.

(** [NextResponse.json(body, { status })]: the value is written as JSON
    first, then the response is made. *)
Definition NextResponse_json (b : Body) (st : Z) : Js NextResponse :=
  if hasJsonText b then
    if Response_accepts st then pure (jsonResponse b st)
    else throw (Response_refusal st)
  else throw TypeError.

(** [return NextResponse.json(body, { status })] *)
Definition return_json {A : Type} (b : Body) (st : Z) : Js A :=
  bind (NextResponse_json b st) return_.

(** [await fetch(url, { headers })] *)
Definition fetch (url : string) (init : list (string * string)) : Js FetchResponse :=
  Fetch url init (fun o =>
    match o with
    | Rejected => throw FetchError
    | Resolved r => pure r
    end).

(** [await response.json()], [await response.text()] *)
Definition response_json (r : FetchResponse) : Js Json :=
  match json r with Some v => pure v | None => throw SyntaxError end.

Definition response_text (r : FetchResponse) : Js string :=
  match text r with Some s => pure s | None => throw TypeError end.

(** [value.key] on parsed JSON, for a [key] that is no member of the
    String, Number, Boolean and Array prototypes (the handlers read
    [name], [smiles] and [stdinchi] only): reading a property of [null]
    throws, a primitive or an array has no such property. *)
Definition get_prop (value : Json) (key : string) : Js JsVal :=
  match value with
  | JNull => throw TypeError
  | JObj fields =>
      pure match object_get fields key with
           | Own v => FromJson v
           | Inherited m => Builtin m
           | Absent => Undefined
           end
  | JBool _ | JNum _ | JStr _ | JArr _ => pure Undefined
  end.

(** [value.trim()]: only a string has a callable [trim]. *)
Definition call_trim (value : JsVal) : Js string :=
  match value with
  | FromJson (JStr s) => pure (JsString.trim s)
  | _ => throw TypeError
  end.

(** [encodeURIComponent(value)] *)
Definition encodeURIComponent {E : Engine} (value : JsVal) : Js string :=
  match ToString value with
  | Some s => pure (JsString.encodeURIComponent s)
  | None => throw TypeError
  end.

(** The upstream: what the fetch of [url] resolves to after the fetches
    [history] (oldest first) of the same call. *)
Definition Upstream : Type := list string -> string -> FetchOutcome.

(** Run a handler against an upstream; gives the completion and the URLs
    fetched, in order. *)
Fixpoint run_from {A : Type} (p : Prog A) (up : Upstream) (history : list string)
  : A * list string :=
  match p with
  | Ret a => (a, history)
  | Fetch url _ k => run_from (k (up history url)) up (history ++ [url])
  end.

Definition run {A : Type} (p : Prog A) (up : Upstream) : A * list string :=
  run_from p up [].

(** What running [bind c f] makes of the run of [c]. *)
Definition after_bind {A B : Type} (f : A -> Js B) (up : Upstream)
    (done : Completion A * list string) : Completion B * list string :=
  match done with
  | (Normal a, history) => run_from (f a) up history
  | (Return r, history) => (Return r, history)
  | (Throw e, history) => (Throw e, history)
  end.

(** What running [try_catch c handler] makes of the run of [c]. *)
Definition after_catch {A : Type} (handler : JsError -> Js A) (up : Upstream)
    (done : Completion A * list string) : Completion A * list string :=
  match done with
  | (Throw e, history) => run_from (handler e) up history
  | other => other
  end.

(** The responses a run receives, in order. *)
Fixpoint received_from {A : Type} (p : Prog A) (up : Upstream) (history : list string)
  : list FetchOutcome :=
  match p with
  | Ret _ => []
  | Fetch url _ k =>
      up history url :: received_from (k (up history url)) up (history ++ [url])
  end.

Definition received {A : Type} (p : Prog A) (up : Upstream) : list FetchOutcome :=
  received_from p up [].

(** ** The resolve route, [POST /api/molecule/resolve] *)

Module Resolve.

(** Compound name mappings for the pharmaceutical compounds. *)
Definition COMPOUND_NAME_MAPPINGS : list (string * string) :=
  [ ("Metformin", "metformin");
    ("Nefazodone", "nefazodone");
    ("Troglitazone", "troglitazone");
    ("Aspirin", "aspirin");
    ("Atorvastatin", "atorvastatin");
    ("Lisinopril", "lisinopril");
    ("Ketoconazole", "ketoconazole");
    ("Diclofenac", "diclofenac");
    ("Amiodarone", "amiodarone");
    ("Warfarin", "warfarin");
    ("Phenytoin", "phenytoin");
    ("Carbamazepine", "carbamazepine");
    ("Valproic Acid", "valproic acid");
    ("Ibuprofen", "ibuprofen");
    ("Acetaminophen", "acetaminophen");
    ("Simvastatin", "simvastatin");
    ("Lovastatin", "lovastatin");
    ("Pravastatin", "pravastatin");
    ("Rosuvastatin", "rosuvastatin");
    ("Fluvastatin", "fluvastatin") ].

(** Known good data for common compounds. *)
Definition knownCompounds : list (string * MoleculeResolveResponse) :=
  [ ("Metformin",
     {| source := "pubchem";
        name := "Metformin";
        cid := JNum 4091;
        smiles := JStr "CN(C)C(=N)NC(=N)N";
        inchi := JStr "InChI=1S/C4H11N5/c1-9(2)4(7)8-3(5)6/h1-2H3,(H5,5,6,7,8)";
        sdf3d_url := "/api/molecule/sdf?cid=4091";
        molecular_formula := JStr "C4H11N5";
        molecular_weight := JNum 129.16 |});
    ("Aspirin",
     {| source := "pubchem";
        name := "Aspirin";
        cid := JNum 2244;
        smiles := JStr "CC(=O)OC1=CC=CC=C1C(=O)O";
        inchi := JStr "InChI=1S/C9H8O4/c1-6(10)13-8-5-3-2-4-7(8)9(11)12/h2-5H,1H3,(H,11,12)";
        sdf3d_url := "/api/molecule/sdf?cid=2244";
        molecular_formula := JStr "C9H8O4";
        molecular_weight := JNum 180.16 |});
    ("Atorvastatin",
     {| source := "pubchem";
        name := "Atorvastatin";
        cid := JNum 60823;
        smiles := JStr "CC(C)C1=C(C(=C(N1CC[C@H](C[C@H](CC(=O)O)O)O)C2=CC=C(C=C2)F)C3=CC=CC=C3)C(=O)NC4=CC=CC=C4";
        inchi := JStr "InChI=1S/C33H35FN2O5/c1-21(2)31-30(33(41)35-25-11-7-4-8-12-25)29(23-9-5-3-6-10-23)32(22-13-15-24(34)16-14-22)36(31)18-17-26(37)19-27(38)20-28(39)40/h3-16,21,26-27,37-38H,17-20H2,1-2H3,(H,35,41)(H,39,40)/t26-,27-/m1/s1";
        sdf3d_url := "/api/molecule/sdf?cid=60823";
        molecular_formula := JStr "C33H35FN2O5";
        molecular_weight := JNum 558.64 |});
    ("Nefazodone",
     {| source := "pubchem";
        name := "Nefazodone";
        cid := JNum 4449;
        smiles := JStr "CCN1CCN(CC1)C2=CC=C(C=C2)OCC3=CC=CC=C3C(=O)N4CCN(CC4)C5=NC=CC=N5";
        inchi := JStr "InChI=1S/C25H32ClN5O2/c1-2-29-13-17-31(18-14-29)22-7-9-23(10-8-22)33-19-21-5-3-4-6-24(21)25(32)30-15-11-28(12-16-30)26-20-27/h3-10,20H,2,11-19H2,1H3";
        sdf3d_url := "/api/molecule/sdf?cid=4449";
        molecular_formula := JStr "C25H32ClN5O2";
        molecular_weight := JNum 470.01 |});
    ("Troglitazone",
     {| source := "pubchem";
        name := "Troglitazone";
        cid := JNum 5591;
        smiles := JStr "CC1=C(C(=C(C=C1)O)CC2C(=O)NC(=O)S2)C3CCC(CC3)(C)C";
        inchi := JStr "InChI=1S/C24H27NO5S/c1-14-11-17(26)16(12-18-20(27)25-21(28)31-18)15(14)19-7-9-24(2,3)10-8-19/h11-12,18-19,26H,7-10H2,1-3H3,(H,25,27,28)/t18-/m1/s1";
        sdf3d_url := "/api/molecule/sdf?cid=5591";
        molecular_formula := JStr "C24H27NO5S";
        molecular_weight := JNum 441.54 |});
    ("Lisinopril",
     {| source := "pubchem";
        name := "Lisinopril";
        cid := JNum 5362119;
        smiles := JStr "CCCCN1CCCC1C(=O)N[C@@H](CCc2ccccc2)C(=O)N3CCC[C@H]3C(=O)O";
        inchi := JStr "InChI=1S/C21H31N3O5/c1-2-3-12-24-13-7-11-18(24)20(26)22-16(14-15-8-5-4-6-9-15)19(25)23-17-10-7-13-24(17)21(27)28/h4-6,8-9,16-18H,2-3,7,10-14H2,1H3,(H,22,26)(H,23,25)(H,27,28)/t16-,17-,18+/m0/s1";
        sdf3d_url := "/api/molecule/sdf?cid=5362119";
        molecular_formula := JStr "C21H31N3O5";
        molecular_weight := JNum 405.49 |});
    ("Orfanglipron",
     {| source := "pubchem";
        name := "Orfanglipron";
        cid := JNum 155903239;
        smiles := JStr "CC(C)(C)OC(=O)N[C@@H](CC1=CC=CC=C1)C(=O)N[C@@H](CC2=CC=C(C=C2)F)C(=O)N[C@@H](CC(C)C)C(=O)N3CCC[C@H]3C(=O)O";
        inchi := JStr "InChI=1S/C32H43FN4O7/c1-20(2)17-25(29(40)37-16-8-9-26(37)30(41)42)35-28(39)24(18-22-12-14-23(33)15-13-22)34-27(38)21(19-11-6-5-7-10-21)36-31(43)44-32(3,4)5/h5-7,10,12-15,20,24-26H,8-9,11,16-19H2,1-4H3,(H,34,38)(H,35,39)(H,36,43)(H,41,42)/t24-,25-,26-/m0/s1";
        sdf3d_url := "/api/molecule/sdf?cid=155903239";
        molecular_formula := JStr "C32H43FN4O7";
        molecular_weight := JNum 614.71 |}) ].

Definition userAgent : list (string * string) :=
  [ ("User-Agent", "AxiomGFX/1.0 (https://axiomgfx.com)") ].

Definition opsinUrl (encodedName : string) : string :=
  "https://opsin.ch.cam.ac.uk/opsin/" ++ encodedName ++ ".json".

Definition cirUrl (encodedName : string) : string :=
  "https://cactus.nci.nih.gov/chemical/structure/" ++ encodedName ++ "/smiles".

(** [`/api/molecule/sdf?smiles=${encodeURIComponent(smiles)}&get3d=true`] *)
Definition sdfBySmiles (encodedSmiles : string) : string :=
  "/api/molecule/sdf?smiles=" ++ encodedSmiles ++ "&get3d=true".

Definition mockResult (originalName : string) : MoleculeResolveResponse :=
  {| source := "mock";
     name := originalName;
     cid := Undefined;
     smiles := JStr "CCO";
     inchi := Undefined;
     sdf3d_url := sdfBySmiles (JsString.encodeURIComponent "CCO");
     molecular_formula := JStr "C2H6O";
     molecular_weight := JNum 46.07 |}.

(** The identity the OPSIN step answers with. *)
Definition opsinResult (originalName : string) (opsinSmiles stdinchi : JsVal)
    (encodedSmiles : string) : MoleculeResolveResponse :=
  {| source := "opsin";
     name := originalName;
     cid := Undefined;
     smiles := opsinSmiles;
     inchi := stdinchi;
     sdf3d_url := sdfBySmiles encodedSmiles;
     molecular_formula := Undefined;
     molecular_weight := Undefined |}.

(** The identity the CIR step answers with. *)
Definition cirResult (originalName trimmed : string) : MoleculeResolveResponse :=
  {| source := "cir";
     name := originalName;
     cid := Undefined;
     smiles := JStr trimmed;
     inchi := Undefined;
     sdf3d_url := sdfBySmiles (JsString.encodeURIComponent trimmed);
     molecular_formula := Undefined;
     molecular_weight := Undefined |}.

Section Handlers.

Context {E : Engine}.

Local Open Scope js_scope.

(** [COMPOUND_NAME_MAPPINGS[originalName] || originalName.toLowerCase()] *)
Definition queryName (originalName : string) : JsVal :=
  match object_get COMPOUND_NAME_MAPPINGS originalName with
  | Own s => if JsString.isEmpty s then JStr (toLowerCase originalName) else JStr s
  | Inherited m => Builtin m
  | Absent => JStr (toLowerCase originalName)
  end.

(** Step 2: the OPSIN fallback (the body of its [try]). *)
Definition opsinStep (originalName : string) (name : JsVal) : Js unit :=
  encoded <- encodeURIComponent name ;;
  opsinResponse <- fetch (opsinUrl encoded) userAgent ;;
  if ok opsinResponse then
    opsinData <- response_json opsinResponse ;;
    opsinSmiles <- get_prop opsinData "smiles" ;;
    if truthy opsinSmiles then
      stdinchi <- get_prop opsinData "stdinchi" ;;
      encodedSmiles <- encodeURIComponent opsinSmiles ;;
      return_json (JsonIdentity (opsinResult originalName opsinSmiles stdinchi encodedSmiles))
                  200
    else pure tt
  else pure tt.

(** Step 3: the NIH CIR fallback (the body of its [try]). *)
Definition cirStep (originalName : string) (name : JsVal) : Js unit :=
  encoded <- encodeURIComponent name ;;
  cirResponse <- fetch (cirUrl encoded) userAgent ;;
  if ok cirResponse then
    cirSmiles <- response_text cirResponse ;;
    if negb (JsString.isEmpty cirSmiles)
       && negb (JsString.isEmpty (JsString.trim cirSmiles))
       && negb (JsString.includes cirSmiles "Error")
    then
      return_json (JsonIdentity (cirResult originalName (JsString.trim cirSmiles))) 200
    else pure tt
  else pure tt.

(** The [try] block of [POST] from [const name = ...] on.  Step 1, the
    PubChem lookup, is a comment in the source and so is no part of it. *)
Definition resolve (originalName : string) : Js unit :=
  let name := queryName originalName in
  match object_get knownCompounds originalName with
  | Own known => return_json (JsonIdentity known) 200
  | Inherited m => return_json (JsonValue (Builtin m)) 200
  | Absent =>
      try_catch (opsinStep originalName name) (fun _ => pure tt) ;;
      try_catch (cirStep originalName name) (fun _ => pure tt) ;;
      return_json (JsonIdentity (mockResult originalName)) 200
  end.

(** The handler of [POST /api/molecule/resolve]; [requestJson] is what
    [await request.json()] gives ([None]: the body is not JSON). *)
Definition POST (requestJson : option Json) : Js unit :=
  try_catch
    (body <- match requestJson with Some v => pure v | None => throw SyntaxError end ;;
     bodyName <- get_prop body "name" ;;
     originalName <- call_trim bodyName ;;
     resolve originalName)
    (fun _ => return_json (JsonError "Failed to resolve molecule") 500).

(** [GET] on the resolve route. *)
Definition GET : Js unit :=
  return_json (JsonError "Method not allowed") 405.

End Handlers.

End Resolve.

(** ** The structure-file proxy, [GET /api/molecule/sdf] *)

Module Sdf.

Local Open Scope js_scope.

(** [searchParams.get(key)]: the value of the first pair named [key]. *)
Definition get (searchParams : list (string * string)) (key : string) : option string :=
  own searchParams key.

(** Truthiness of what [searchParams.get] gives: neither [null] nor the
    empty string. *)
Definition present (param : option string) : bool :=
  match param with
  | Some s => negb (JsString.isEmpty s)
  | None => false
  end.

(** [if (param) { block }] *)
Definition whenPresent (param : option string) (block : string -> Js unit) : Js unit :=
  match param with
  | Some s => if JsString.isEmpty s then pure tt else block s
  | None => pure tt
  end.

Definition sdfAccept : list (string * string) :=
  [ ("User-Agent", "AxiomGFX/1.0 (https://axiomgfx.com)");
    ("Accept", "chemical/x-mdl-sdfile,text/plain,*/*") ].

Definition sdfHeaders : list (string * string) :=
  [ ("Content-Type", "chemical/x-mdl-sdfile");
    ("Access-Control-Allow-Origin", "*");
    ("Access-Control-Allow-Methods", "GET");
    ("Access-Control-Allow-Headers", "Content-Type") ].

(** [new NextResponse(sdfData, { status: 200, headers })] *)
Definition sdfResponse (sdfData : string) : NextResponse :=
  {| status := 200; headers := sdfHeaders; body := Text sdfData |}.

Definition pubchemUrl (cid : string) : string :=
  "https://pubchem.ncbi.nlm.nih.gov/rest/pug/compound/cid/" ++ cid
  ++ "/record/SDF?record_type=3d".

Definition cactusUrl (id : string) (want3d : bool) : string :=
  "https://cactus.nci.nih.gov/chemical/structure/" ++ id ++ "/sdf"
  ++ (if want3d then "?get3d=true" else "").

Definition altUrl (id : string) (want3d : bool) : string :=
  "https://cactus.nci.nih.gov/chemical/structure/" ++ id ++ "/file?format=sdf"
  ++ (if want3d then "&get3d=true" else "").

(** The outer [catch] of the proxy. *)
Definition failed : JsError -> Js unit :=
  fun _ => return_json (JsonError "Failed to fetch SDF data") 500.

(** The [if (cid) { ... }] block. *)
Definition byCid (cid : string) : Js unit :=
  response <- fetch (pubchemUrl cid) sdfAccept ;;
  if negb (ok response) then
    return_json (JsonError ("Failed to fetch SDF: " ++ statusText response))
                (fstatus response)
  else
    sdfData <- response_text response ;;
    return_ (sdfResponse sdfData).

(** The [if (smiles) { ... }] block. *)
Definition bySmiles (smiles : string) (get3d : option string) : Js unit :=
  let id := JsString.encodeURIComponent smiles in
  let want3d := match get3d with Some s => String.eqb s "true" | None => false end in
  response <- fetch (cactusUrl id want3d) sdfAccept ;;
  response <- (if negb (ok response)
               then fetch (altUrl id want3d) sdfAccept
               else pure response) ;;
  if negb (ok response) then
    return_json (JsonError ("Failed to fetch SDF from Cactus: " ++ statusText response))
                (fstatus response)
  else
    sdfData <- response_text response ;;
    return_ (sdfResponse sdfData).

(** The handler of [GET /api/molecule/sdf]; [searchParams] are the
    name/value pairs of the query of [request.url], in order. *)
Definition GET (searchParams : list (string * string)) : Js unit :=
  try_catch
    (let cid := get searchParams "cid" in
     let smiles := get searchParams "smiles" in
     let get3d := get searchParams "get3d" in
     if negb (present cid) && negb (present smiles) then
       return_json (JsonError "cid or smiles parameter required") 400
     else
       whenPresent cid byCid ;;
       whenPresent smiles (fun smiles => bySmiles smiles get3d) ;;
       return_json (JsonError "Unhandled request") 400)
    failed.

(** [OPTIONS] on the proxy: the preflight answer. *)
Definition OPTIONS : Js unit :=
  return_ {| status := 200;
             headers := [ ("Access-Control-Allow-Origin", "*");
                          ("Access-Control-Allow-Methods", "GET");
                          ("Access-Control-Allow-Headers", "Content-Type") ];
             body := NoBody |}.

End Sdf.

(** ** Vocabulary of the specification *)

(** The [source] enumeration of the specification's data model. *)
Inductive Provenance : Type :=
| Catalog
| ProviderA
| ProviderB
| ProviderC
| Placeholder.

(** The provenance a [source] tag stands for: PubChem is Provider A, OPSIN
    Provider B, the NIH CIR Provider C, the mock the placeholder. *)
Definition provenance (tag : string) : option Provenance :=
  if String.eqb tag "catalog" then Some Catalog
  else if String.eqb tag "pubchem" then Some ProviderA
  else if String.eqb tag "opsin" then Some ProviderB
  else if String.eqb tag "cir" then Some ProviderC
  else if String.eqb tag "mock" then Some Placeholder
  else None.

(** The string [name] field of a request body, when it has one. *)
Definition requestName (requestJson : option Json) : option string :=
  match requestJson with
  | Some (JObj fields) =>
      match own fields "name" with
      | Some (JStr n) => Some n
      | _ => None
      end
  | _ => None
  end.

(** The own field [key] of parsed JSON, [undefined] when there is none. *)
Definition field (data : Json) (key : string) : JsVal :=
  match data with
  | JObj fields =>
      match own fields key with
      | Some v => FromJson v
      | None => Undefined
      end
  | _ => Undefined
  end.

(** The name sent to the providers: the mapped name, else the lower-cased
    one. *)
Definition normalizedName {E : Engine} (originalName : string) : string :=
  match own Resolve.COMPOUND_NAME_MAPPINGS originalName with
  | Some mapped => mapped
  | None => toLowerCase originalName
  end.

(** Provider B fails: transport error, non-2xx status, a body that is not
    JSON, or a missing (falsy) [smiles] field. *)
Definition opsin_fails (o : FetchOutcome) : bool :=
  match o with
  | Rejected => true
  | Resolved r =>
      negb (ok r)
      || match json r with
         | None => true
         | Some data => negb (truthy (field data "smiles"))
         end
  end.

(** Provider C succeeds: the response is successful and its body, after
    trimming, is non-empty and does not contain the error marker.  Gives
    the trimmed body. *)
Definition cir_accepts (o : FetchOutcome) : option string :=
  match o with
  | Rejected => None
  | Resolved r =>
      if ok r then
        match text r with
        | Some b =>
            let trimmed := JsString.trim b in
            if negb (JsString.isEmpty trimmed) && negb (JsString.includes trimmed "Error")
            then Some trimmed
            else None
        | None => None
        end
      else None
  end.

(** What a block of the proxy makes of the upstream answer it ends on;
    [label] opens the error message.  A non-2xx status is handed on when a
    response can be made with it; otherwise making the response throws. *)
Definition relay (label : string) (o : FetchOutcome) : Completion unit :=
  match o with
  | Rejected => Throw FetchError
  | Resolved r =>
      if ok r then
        match text r with
        | Some sdfData => Return (Sdf.sdfResponse sdfData)
        | None => Throw TypeError
        end
      else if Response_accepts (fstatus r)
      then Return (jsonResponse (JsonError (label ++ statusText r)) (fstatus r))
      else Throw (Response_refusal (fstatus r))
  end.

(** An upstream call fails: the fetch is rejected (transport error) or the
    reply has a non-2xx status. *)
Definition upstream_fails (o : FetchOutcome) : bool :=
  match o with
  | Rejected => true
  | Resolved r => negb (ok r)
  end.

(** The members of [Object.prototype] that are functions: all of them but
    [__proto__]. *)
Definition inheritedFunction (key : string) : bool :=
  inherited key && negb (String.eqb key "__proto__").

(** *** Provider A, as the commented-out step 1 of the handler reads it *)

Definition pubchemCidsUrl (encodedName : string) : string :=
  "https://pubchem.ncbi.nlm.nih.gov/rest/pug/compound/name/" ++ encodedName ++ "/cids/JSON".

Definition pubchemPropsUrl (cidText : string) : string :=
  "https://pubchem.ncbi.nlm.nih.gov/rest/pug/compound/cid/" ++ cidText
  ++ "/property/IsomericSMILES,InChI,InChIKey,MolecularFormula,MolecularWeight/JSON".

(** The first element of the array under [inner] of the object under
    [outer]: [data.outer?.inner?.[0]]. *)
Definition firstOf (data : Json) (outer inner : string) : option Json :=
  match field data outer with
  | FromJson wrapped =>
      match field wrapped inner with
      | FromJson (JArr (first :: _)) => Some first
      | _ => None
      end
  | _ => None
  end.

(** A successful name lookup: [data.IdentifierList?.CID?.[0]], a truthy
    number. *)
Definition pubchem_cid (o : FetchOutcome) : option Q :=
  match o with
  | Resolved r =>
      if ok r then
        match json r with
        | Some data =>
            match firstOf data "IdentifierList" "CID" with
            | Some (JNum c) => if truthy (JNum c) then Some c else None
            | _ => None
            end
        | None => None
        end
      else None
  | Rejected => None
  end.

(** A successful property fetch: [propsData.PropertyTable?.Properties?.[0]],
    an object. *)
Definition pubchem_properties (o : FetchOutcome) : option Json :=
  match o with
  | Resolved r =>
      if ok r then
        match json r with
        | Some data =>
            match firstOf data "PropertyTable" "Properties" with
            | Some (JObj fields) => Some (JObj fields)
            | _ => None
            end
        | None => None
        end
      else None
  | Rejected => None
  end.

(** Provider A returns a valid numeric id for the name and a successful
    property fetch for that id. *)
Definition providerA_answers {E : Engine} (up : Upstream) (encodedName : string)
    (properties : Json) : Prop :=
  exists c cidText,
    (forall history, pubchem_cid (up history (pubchemCidsUrl encodedName)) = Some c)
    /\ ToString (JNum c) = Some cidText
    /\ (forall history,
          pubchem_properties (up history (pubchemPropsUrl cidText)) = Some properties).

(** Provider B responds successfully with a non-empty [smiles] string. *)
Definition opsin_smiles (o : FetchOutcome) : option string :=
  match o with
  | Resolved r =>
      if ok r then
        match json r with
        | Some data =>
            match field data "smiles" with
            | FromJson (JStr s) => if JsString.isEmpty s then None else Some s
            | _ => None
            end
        | None => None
        end
      else None
  | Rejected => None
  end.

(** *** Sentences of the specification, as they are worded *)

Section AsStated.

Context {E : Engine}.

(** A catalog name resolves to its entry, tagged [catalog], with no fetch. *)
Definition catalog_claim (requestJson : option Json) (n : string) (up : Upstream) : Prop :=
  requestName requestJson = Some n ->
  forall entry, own Resolve.knownCompounds n = Some entry ->
    run (Resolve.POST requestJson) up
    = (Return (jsonResponse (JsonIdentity entry) 200), [])
    /\ provenance (source entry) = Some Catalog.

(** Off the catalog, an answering Provider A decides the result. *)
Definition providerA_claim (requestJson : option Json) (n : string) (up : Upstream)
    (properties : Json) : Prop :=
  requestName requestJson = Some n ->
  object_get Resolve.knownCompounds (JsString.trim n) = Absent ->
  providerA_answers up
    (JsString.encodeURIComponent (normalizedName (JsString.trim n))) properties ->
  exists identity,
    fst (run (Resolve.POST requestJson) up)
    = Return (jsonResponse (JsonIdentity identity) 200)
    /\ provenance (source identity) = Some ProviderA
    /\ smiles identity = field properties "IsomericSMILES"
    /\ inchi identity = field properties "InChI"
    /\ molecular_formula identity = field properties "MolecularFormula"
    /\ molecular_weight identity = field properties "MolecularWeight".

(** When Provider A fails and Provider B gives a SMILES, the result is
    Provider B's with nothing but the SMILES set. *)
Definition providerB_claim (requestJson : option Json) (n : string) (up : Upstream)
    (s : string) : Prop :=
  let encoded := JsString.encodeURIComponent (normalizedName (JsString.trim n)) in
  requestName requestJson = Some n ->
  object_get Resolve.knownCompounds (JsString.trim n) = Absent ->
  (forall properties, ~ providerA_answers up encoded properties) ->
  opsin_smiles (up [] (Resolve.opsinUrl encoded)) = Some s ->
  exists identity,
    fst (run (Resolve.POST requestJson) up)
    = Return (jsonResponse (JsonIdentity identity) 200)
    /\ provenance (source identity) = Some ProviderB
    /\ smiles identity = JStr s
    /\ inchi identity = Undefined
    /\ molecular_formula identity = Undefined
    /\ molecular_weight identity = Undefined.

End AsStated.

(** The retry of the proxy, as the specification words it: when the
    primary endpoint fails, the alternate endpoint is tried, once, and
    when that fails too its status is the status of the proxy's answer. *)
Definition retry_claim (searchParams : list (string * string)) (smiles : string)
    (up : Upstream) : Prop :=
  let id := JsString.encodeURIComponent smiles in
  let want3d := match Sdf.get searchParams "get3d" with
                | Some s => String.eqb s "true"
                | None => false
                end in
  Sdf.present (Sdf.get searchParams "cid") = false ->
  Sdf.get searchParams "smiles" = Some smiles ->
  JsString.isEmpty smiles = false ->
  upstream_fails (up [] (Sdf.cactusUrl id want3d)) = true ->
  snd (run (Sdf.GET searchParams) up) = [Sdf.cactusUrl id want3d; Sdf.altUrl id want3d]
  /\ forall alternate,
       up [Sdf.cactusUrl id want3d] (Sdf.altUrl id want3d) = Resolved alternate ->
       ok alternate = false ->
       exists answer,
         fst (run (Sdf.GET searchParams) up)
         = Return (jsonResponse answer (fstatus alternate)).

(** *** Inputs of the examples *)

(** The request body [{ name: n }]. *)
Definition named (n : string) : option Json := Some (JObj [ ("name", JStr n) ]).

(** A reply with status [st] and status text [reason]; [t] is what
    [text()] gives and [j] what [json()] gives. *)
Definition replies (st : Z) (reason : string) (t : option string) (j : option Json)
  : FetchOutcome :=
  Resolved {| fstatus := st; statusText := reason; text := t; json := j |}.

(** An upstream where every fetch is rejected. *)
Definition unreachable : Upstream := fun _ _ => Rejected.

(** An upstream that answers [url] with [o] and rejects the rest. *)
Definition only (url : string) (o : FetchOutcome) : Upstream :=
  fun _ asked => if String.eqb asked url then o else Rejected.

(** PubChem knows ibuprofen (CID 3672); nothing else is reachable. *)
Definition ibuprofenProperties : Json :=
  JObj [ ("CID", JNum 3672);
         ("MolecularFormula", JStr "C13H18O2");
         ("MolecularWeight", JStr "206.28");
         ("IsomericSMILES", JStr "CC(C)CC1=CC=C(C=C1)C(C)C(=O)O");
         ("InChI", JStr "InChI=1S/C13H18O2/c1-9(2)8-11-4-6-12(7-5-11)10(3)13(14)15/h4-7,9-10H,3,8H2,1-3H3,(H,14,15)") ].

Definition pubchemOnly : Upstream :=
  fun _ asked =>
    if String.eqb asked (pubchemCidsUrl "ibuprofen") then
      replies 200 "OK" None
        (Some (JObj [ ("IdentifierList", JObj [ ("CID", JArr [ JNum 3672 ]) ]) ]))
    else if String.eqb asked (pubchemPropsUrl "3672") then
      replies 200 "OK" None
        (Some (JObj [ ("PropertyTable", JObj [ ("Properties", JArr [ ibuprofenProperties ]) ]) ]))
    else Rejected.

(** OPSIN translates ethanol, with its standard InChI. *)
Definition opsinEthanol : Upstream :=
  only (Resolve.opsinUrl "ethanol")
    (replies 200 "OK" None
       (Some (JObj [ ("smiles", JStr "CCO");
                     ("stdinchi", JStr "InChI=1S/C2H6O/c1-2-3/h3H,2H2,1H3") ]))).

(** A line feed. *)
Definition LF : string := String (ascii_of_N 10) EmptyString.

(** The CIR resolves ethanol, ending its answer with a line feed; OPSIN is
    not reachable. *)
Definition cirEthanol : Upstream :=
  only (Resolve.cirUrl "ethanol") (replies 200 "OK" (Some ("CCO" ++ LF)%string) None).

(** PubChem serves the 3D record of CID 4091. *)
Definition stubPubchem : Upstream :=
  only (Sdf.pubchemUrl "4091") (replies 200 "OK" (Some "mock-sdf-content") None).

(** Cactus answers 404 on the primary endpoint and serves the file on the
    alternate one. *)
Definition alternateOnly : Upstream :=
  fun _ asked =>
    if String.eqb asked (Sdf.altUrl "CCO" false)
    then replies 200 "OK" (Some "mock-sdf-content") None
    else replies 404 "Not Found" (Some "") None.

(** ** The URL a caller fetches, as the proxy reads it *)

(** [new URL(request.url).searchParams] on the path and query that a caller
    fetches, for a URL that holds no tab, line feed or carriage return
    (the URL parser drops those): the query runs from the first [?] to
    the first [#], its pieces are cut at [&], empty pieces are skipped,
    each piece is cut at its first [=], a [+] stands for a space and
    [%XX] for the byte XX.  (The decoder would replace bytes that are no
    UTF-8 text; the strings of the model are text.) *)
Module Url.

Definition isChar (c a : ascii) : bool := (JsString.code a =? JsString.code c)%N.

(** The text before the first [stop]; all of it when there is none. *)
Fixpoint upTo (stop : ascii) (s : string) : string :=
  match s with
  | EmptyString => EmptyString
  | String a r => if isChar stop a then EmptyString else String a (upTo stop r)
  end.

(** The text after the first [stop]; empty when there is none. *)
Fixpoint after (stop : ascii) (s : string) : string :=
  match s with
  | EmptyString => EmptyString
  | String a r => if isChar stop a then r else after stop r
  end.

Fixpoint splitOn (sep : ascii) (s : string) : list string :=
  match s with
  | EmptyString => [EmptyString]
  | String a r =>
      if isChar sep a then EmptyString :: splitOn sep r
      else
        match splitOn sep r with
        | piece :: pieces => String a piece :: pieces
        | [] => [String a EmptyString]
        end
  end.

Definition hexValue (a : ascii) : option N :=
  let n := JsString.code a in
  if ((48 <=? n) && (n <=? 57))%N then Some (n - 48)%N
  else if ((65 <=? n) && (n <=? 70))%N then Some (n - 55)%N
  else if ((97 <=? n) && (n <=? 102))%N then Some (n - 87)%N
  else None.

(** Decoding of a name or value of a form-encoded query. *)
Fixpoint formDecode (s : string) : string :=
  match s with
  | EmptyString => EmptyString
  | String a r1 =>
      if isChar "+" a then String " " (formDecode r1)
      else if isChar "%" a then
        match r1 with
        | String h (String l r) =>
            match hexValue h, hexValue l with
            | Some x, Some y => String (ascii_of_N (16 * x + y)) (formDecode r)
            | _, _ => String a (formDecode r1)
            end
        | _ => String a (formDecode r1)
        end
      else String a (formDecode r1)
  end.

Definition query (url : string) : string := after "?" (upTo "#" url).

Definition pairOf (piece : string) : string * string :=
  (formDecode (upTo "=" piece), formDecode (after "=" piece)).

Definition searchParams (url : string) : list (string * string) :=
  map pairOf (filter (fun piece => negb (JsString.isEmpty piece)) (splitOn "&" (query url))).

(** [c] occurs in [s]. *)
Fixpoint occurs (c : ascii) (s : string) : bool :=
  match s with
  | EmptyString => false
  | String a r => isChar c a || occurs c r
  end.

(** Every byte of [s] is unreserved or a percent sign. *)
Fixpoint encoded (s : string) : bool :=
  match s with
  | EmptyString => true
  | String a r => (JsString.unreserved a || isChar "%" a) && encoded r
  end.

(** The dot segments of the URL standard, which the parser of [fetch]
    does not keep as path segments: a single-dot segment ([.], or [%2e]
    in either case) is dropped, a double-dot segment ([..], with either
    dot written [%2e]) also removes the segment before it. *)
Definition singleDot (segment : string) : bool :=
  String.eqb segment "." || String.eqb (JsString.asciiToLowerCase segment) "%2e".

Definition doubleDot (segment : string) : bool :=
  let lower := JsString.asciiToLowerCase segment in
  String.eqb segment ".." || String.eqb lower ".%2e" || String.eqb lower "%2e."
  || String.eqb lower "%2e%2e".

Definition dotSegment (segment : string) : bool :=
  singleDot segment || doubleDot segment.

End Url.

(** ** The chart registration guard of the route file's last module *)

Module ChartConfig.

(** What [ChartJS.register] is called with. *)
Definition components : list string :=
  [ "CategoryScale"; "LinearScale"; "BarElement"; "PointElement"; "LineElement";
    "Title"; "Tooltip"; "Legend"; "ArcElement" ].

(** The module state: the flag, and the calls of [ChartJS.register] made so
    far, each with its arguments. *)
Record Module_ : Type := {
  isRegistered : bool;
  registerCalls : list (list string)
}.

(** [let isRegistered = false] *)
Definition loaded : Module_ := {| isRegistered := false; registerCalls := [] |}.

(** [registerChartJS()]; [hasWindow] is [typeof window !== 'undefined']. *)
Definition registerChartJS (hasWindow : bool) (m : Module_) : Module_ :=
  if hasWindow && negb (isRegistered m) then
    {| isRegistered := true; registerCalls := registerCalls m ++ [components] |}
  else m.

(** A series of calls, each with its own answer to the window test. *)
Definition calls (windows : list bool) (m : Module_) : Module_ :=
  fold_left (fun state hasWindow => registerChartJS hasWindow state) windows m.

End ChartConfig.

(** ** [lib/chartjs-config.ts], the guard with a dynamic import *)

Module ChartConfigAsync.

(** The module state: the flag, the calls of [ChartJS.register] made so far,
    and the number of calls of [registerChartJS] that wait at
    [await import('chart.js')]. *)
Record Module_ : Type := {
  isRegistered : bool;
  registerCalls : list (list string);
  waiting : nat
}.

Definition loaded : Module_ :=
  {| isRegistered := false; registerCalls := []; waiting := 0 |}.

(** What can happen next: a call of [registerChartJS] starts and runs up to
    its [await] (or to its end, when the test fails); a waiting call gets
    the imported module and runs to its end; the import of a waiting call
    is rejected and the call ends there. *)
Inductive Event : Type :=
| Begin (hasWindow : bool)
| Finish
| Fail.

Definition step (m : Module_) (e : Event) : Module_ :=
  match e with
  | Begin hasWindow =>
      if hasWindow && negb (isRegistered m) then
        {| isRegistered := isRegistered m;
           registerCalls := registerCalls m;
           waiting := S (waiting m) |}
      else m
  | Finish =>
      match waiting m with
      | O => m
      | S n =>
          {| isRegistered := true;
             registerCalls := registerCalls m ++ [ChartConfig.components];
             waiting := n |}
      end
  | Fail =>
      {| isRegistered := isRegistered m;
         registerCalls := registerCalls m;
         waiting := pred (waiting m) |}
  end.

Definition steps (events : list Event) (m : Module_) : Module_ :=
  fold_left step events m.

(** Calls made one after the other, each awaited before the next starts. *)
Fixpoint awaited (windows : list bool) : list Event :=
  match windows with
  | [] => []
  | hasWindow :: rest => Begin hasWindow :: Finish :: awaited rest
  end.

(** [n] calls started in a browser before any of them is resumed, then all
    resumed. *)
Definition overlapping (n : nat) : list Event :=
  repeat (Begin true) n ++ repeat Finish n.

End ChartConfigAsync.

(** ** [components/FilterBar.tsx] *)

Module FilterBar.

Inductive RiskCategory : Type := Low | Medium | High.

Definition same (a b : RiskCategory) : bool :=
  match a, b with
  | Low, Low | Medium, Medium | High, High => true
  | _, _ => false
  end.

Record FilterState : Type := {
  riskCategories : list RiskCategory;
  searchText : string
}.

(** [array.includes(cat)] *)
Definition includes (cats : list RiskCategory) (cat : RiskCategory) : bool :=
  existsb (same cat) cats.

(** What [toggleRisk(cat)] hands to [onChange]. *)
Definition toggleRisk (filters : FilterState) (cat : RiskCategory) : FilterState :=
  let exists_ := includes (riskCategories filters) cat in
  let riskCategories :=
    if exists_
    then filter (fun c => negb (same c cat)) (riskCategories filters)
    else riskCategories filters ++ [cat] in
  {| riskCategories := riskCategories; searchText := searchText filters |}.

(** What [clearAllCategories()] and [showAllCategories()] hand to
    [onChange]. *)
Definition clearAllCategories (filters : FilterState) : FilterState :=
  {| riskCategories := []; searchText := searchText filters |}.

Definition showAllCategories (filters : FilterState) : FilterState :=
  {| riskCategories := [Low; Medium; High]; searchText := searchText filters |}.

(** [filters.searchText || filters.riskCategories.length < 3] as a
    condition. *)
Definition hasActiveFilters (filters : FilterState) : bool :=
  negb (JsString.isEmpty (searchText filters))
  || (length (riskCategories filters) <? 3)%nat.

(** 1 for [true], 0 for [false]. *)
Definition b2n (b : bool) : nat := if b then 1 else 0.

(** The clicks of the bar. *)
Inductive Click : Type :=
| Toggle (cat : RiskCategory)
| ClearAll
| ShowAll.

Definition click (filters : FilterState) (c : Click) : FilterState :=
  match c with
  | Toggle cat => toggleRisk filters cat
  | ClearAll => clearAllCategories filters
  | ShowAll => showAllCategories filters
  end.

End FilterBar.

(** ** The home page: the row filter and the counters *)

Module Home.

Import FilterBar.

Section Numbers.

(** JavaScript numbers, their [<] and [>=], and the literals 3.3 and 6.6. *)
Variable number : Type.
Variable lt ge : number -> number -> bool.
Variable n3_3 n6_6 : number.

(** [Compound] of [components/CompoundTable.tsx]. *)
Record Compound : Type := {
  id : string;
  name : string;
  tc20 : number;
  tc50 : number;
  ec20 : number;
  ec50 : number;
  riskScore : number;
  riskCategory : RiskCategory;
  molecularWeight : option number;
  logp : option number;
  smiles : option string;
  therapeuticIndex : option number;
  safetyWindow : option (number * number)
}.

Context {E : Engine}.

(** [riskScore < 3.3 ? 'Low' : riskScore < 6.6 ? 'Medium' : 'High'] *)
Definition cat (compound : Compound) : RiskCategory :=
  if lt (riskScore compound) n3_3 then Low
  else if lt (riskScore compound) n6_6 then Medium
  else High.

(** The predicate of [compounds.filter(...)]. *)
Definition shown (filters : FilterState) (compound : Compound) : bool :=
  let matchesRisk := includes (riskCategories filters) (cat compound) in
  let matchesText :=
    JsString.isEmpty (searchText filters)
    || JsString.includes (toLowerCase (name compound)) (toLowerCase (searchText filters)) in
  matchesRisk && matchesText.

Definition filteredCompounds (compounds : list Compound) (filters : FilterState)
  : list Compound :=
  filter (shown filters) compounds.

(** How many compounds the row filter puts into category [c]. *)
Definition inCategory (compounds : list Compound) (c : RiskCategory) : nat :=
  length (filter (fun x => same (cat x) c) compounds).

(** The counters of [stats]. *)
Definition total (compounds : list Compound) : nat := length compounds.

Definition highRisk (compounds : list Compound) : nat :=
  length (filter (fun c => ge (riskScore c) n6_6) compounds).

Definition mediumRisk (compounds : list Compound) : nat :=
  length (filter (fun c => ge (riskScore c) n3_3 && lt (riskScore c) n6_6) compounds).

Definition lowRisk (compounds : list Compound) : nat :=
  length (filter (fun c => lt (riskScore c) n3_3) compounds).

End Numbers.

End Home.

(** *** More inputs of the examples *)

(** PubChem replies 304 Not Modified to the record request of CID 2244. *)
Definition notModified : Upstream :=
  only (Sdf.pubchemUrl "2244") (replies 304 "Not Modified" (Some "") None).

(** Cactus serves the 3D file of ethanol on its primary endpoint. *)
Definition cactusEthanol : Upstream :=
  only (Sdf.cactusUrl "CCO" true) (replies 200 "OK" (Some "mock-sdf-content") None).

(** Scores in tenths, compared as natural numbers. *)
Definition tenths (score : nat) (label : string) : Home.Compound nat :=
  {| Home.id := label;
     Home.name := label;
     Home.tc20 := 0%nat;
     Home.tc50 := 0%nat;
     Home.ec20 := 0%nat;
     Home.ec50 := 0%nat;
     Home.riskScore := score;
     Home.riskCategory := FilterBar.Low;
     Home.molecularWeight := None;
     Home.logp := None;
     Home.smiles := None;
     Home.therapeuticIndex := None;
     Home.safetyWindow := None |}.

Definition fourCompounds : list (Home.Compound nat) :=
  [ tenths 1%nat "lotiglipron"; tenths 33%nat "borderline"; tenths 60%nat "orfanglipron";
    tenths 72%nat "troglitazone" ].

(** ** Proof tools *)

Ltac bool_to_prop :=
  repeat rewrite ?andb_true_iff, ?orb_true_iff, ?N.eqb_eq, ?N.leb_le in *.

(** ** Facts about strings *)

Module JsStringFacts.
Import JsString.
Local Open Scope string_scope.

Example trim_spaces : trim "  Aspirin   " = "Aspirin".
Proof. reflexivity. Qed.

Example trim_keeps_inner_space : trim " Valproic Acid " = "Valproic Acid".
Proof. reflexivity. Qed.

Example trim_no_break_space :
  trim (String (ascii_of_N 194) (String (ascii_of_N 160) "CCO")) = "CCO".
Proof. reflexivity. Qed.

Example encode_space : encodeURIComponent "valproic acid" = "valproic%20acid".
Proof. reflexivity. Qed.

Example encode_smiles : encodeURIComponent "CC(=O)O" = "CC(%3DO)O".
Proof. reflexivity. Qed.

Example includes_marker : includes "<h1>Page not found (404 Error)</h1>" "Error" = true.
Proof. reflexivity. Qed.

Lemma ws1_wsByte a : ws1 a = true -> wsByte a = true.
Proof. unfold ws1, wsByte. cbv zeta. bool_to_prop. intuition lia. Qed.

Lemma ws2_wsByte a b : ws2 a b = true -> wsByte a = true /\ wsByte b = true.
Proof. unfold ws2, wsByte. cbv zeta. bool_to_prop. intuition lia. Qed.

Lemma ws3_wsByte a b c :
  ws3 a b c = true -> wsByte a = true /\ wsByte b = true /\ wsByte c = true.
Proof. unfold ws3, wsByte. cbv zeta. bool_to_prop. intuition lia. Qed.

Lemma trimStart_cases s :
  (exists a r, s = String a r /\ ws1 a = true /\ trimStart s = trimStart r)
  \/ (exists a b r, s = String a (String b r) /\ ws2 a b = true /\ trimStart s = trimStart r)
  \/ (exists a b c r, s = String a (String b (String c r)) /\ ws3 a b c = true
                      /\ trimStart s = trimStart r)
  \/ trimStart s = s.
Proof.
  destruct s as [|a [|b [|c r]]]; simpl.
  - right; right; right; reflexivity.
  - destruct (ws1 a) eqn:H1; [left; eauto | right; right; right; reflexivity].
  - destruct (ws1 a) eqn:H1; [left; eauto |].
    destruct (ws2 a b) eqn:H2; [right; left; do 3 eexists; eauto |].
    right; right; right; reflexivity.
  - destruct (ws1 a) eqn:H1; [left; eauto |].
    destruct (ws2 a b) eqn:H2; [right; left; do 3 eexists; eauto |].
    destruct (ws3 a b c) eqn:H3; [right; right; left; do 4 eexists; eauto |].
    right; right; right; reflexivity.
Qed.

(** [trimStart] only removes white space bytes. *)
Lemma trimStart_split_len n : forall s,
  (String.length s <= n)%nat ->
  exists w, s = w ++ trimStart s /\ allWs w = true.
Proof.
  induction n as [|n IH]; intros s Hlen.
  - destruct s; [exists ""; auto | simpl in Hlen; lia].
  - destruct (trimStart_cases s) as
      [(a & r & -> & Hw & Heq)
      |[(a & b & r & -> & Hw & Heq)
       |[(a & b & c & r & -> & Hw & Heq) | Heq]]].
    + destruct (IH r) as (w & Hr & Hall); [simpl in Hlen; lia|].
      exists (String a w). rewrite Heq. simpl. rewrite <- Hr.
      rewrite (ws1_wsByte _ Hw), Hall. auto.
    + destruct (IH r) as (w & Hr & Hall); [simpl in Hlen; lia|].
      destruct (ws2_wsByte _ _ Hw) as [Ha Hb].
      exists (String a (String b w)). rewrite Heq. simpl. rewrite <- Hr.
      rewrite Ha, Hb, Hall. auto.
    + destruct (IH r) as (w & Hr & Hall); [simpl in Hlen; lia|].
      destruct (ws3_wsByte _ _ _ Hw) as (Ha & Hb & Hc).
      exists (String a (String b (String c w))). rewrite Heq. simpl. rewrite <- Hr.
      rewrite Ha, Hb, Hc, Hall. auto.
    + exists "". rewrite Heq. auto.
Qed.

Lemma trimStart_split s : exists w, s = w ++ trimStart s /\ allWs w = true.
Proof. apply (trimStart_split_len (String.length s)). lia. Qed.

Lemma append_empty_r (s : string) : s ++ "" = s.
Proof. induction s; simpl; congruence. Qed.

(** [trimEnd] only removes white space bytes. *)
Lemma trimEnd_split s : exists w, s = trimEnd s ++ w /\ allWs w = true.
Proof.
  induction s as [|a r IH].
  - exists "". auto.
  - cbn [trimEnd]. destruct (isEmpty (trimStart (String a r))) eqn:Hempty.
    + destruct (trimStart_split (String a r)) as (w & Hs & Hall).
      destruct (trimStart (String a r)); [|discriminate].
      rewrite append_empty_r in Hs. exists w. split; [exact Hs | exact Hall].
    + destruct IH as (w & Hr & Hall). exists w. simpl. rewrite <- Hr. auto.
Qed.

Lemma prefix_cons_neq a c p s : a <> c -> prefix (String c p) (String a s) = false.
Proof. intros H. simpl. destruct (ascii_dec c a); congruence. Qed.

Lemma wsByte_neq a c : wsByte a = true -> wsByte c = false -> a <> c.
Proof. congruence. Qed.

(** White space in front of [s] hides no occurrence of a marker that
    holds no white space byte. *)
Lemma includes_skip_front w : forall s c p,
  allWs w = true -> wsByte c = false ->
  includes (w ++ s) (String c p) = includes s (String c p).
Proof.
  induction w as [|a w IH]; intros s c p Hall Hc; [reflexivity|].
  simpl in Hall. apply andb_true_iff in Hall as [Ha Hall].
  change (String a w ++ s) with (String a (w ++ s)).
  cbn [includes]. rewrite prefix_cons_neq by (apply wsByte_neq; assumption).
  simpl. apply IH; assumption.
Qed.

Lemma prefix_append_ws p : forall t w,
  noWs p = true -> allWs w = true -> prefix p (t ++ w) = prefix p t.
Proof.
  induction p as [|c p IH]; intros t w Hp Hw.
  - destruct t, w; reflexivity.
  - simpl in Hp. apply andb_true_iff in Hp as [Hc Hp].
    apply negb_true_iff in Hc.
    destruct t as [|a t].
    + destruct w as [|b w]; [reflexivity|].
      simpl in Hw. apply andb_true_iff in Hw as [Hb Hw].
      simpl. destruct (ascii_dec c b); [congruence | reflexivity].
    + simpl. destruct (ascii_dec c a); [apply IH; assumption | reflexivity].
Qed.

Lemma includes_allWs w : forall c p,
  allWs w = true -> wsByte c = false -> includes w (String c p) = false.
Proof.
  intros c p Hall Hc.
  rewrite <- (append_empty_r w), includes_skip_front by assumption.
  reflexivity.
Qed.

(** White space behind [t] adds no occurrence of such a marker. *)
Lemma includes_skip_back t : forall w c p,
  allWs w = true -> noWs (String c p) = true ->
  includes (t ++ w) (String c p) = includes t (String c p).
Proof.
  induction t as [|a t IH]; intros w c p Hall Hp.
  - simpl append. rewrite includes_allWs; auto.
    simpl in Hp. apply andb_true_iff in Hp as [Hc _]. now apply negb_true_iff in Hc.
  - change (String a t ++ w) with (String a (t ++ w)).
    cbn [includes]. rewrite IH by assumption.
    change (String a (t ++ w)) with (String a t ++ w).
    rewrite prefix_append_ws by assumption. reflexivity.
Qed.

(** Trimming neither hides nor adds an occurrence of a marker that holds
    no white space byte. *)
Lemma includes_trim s c p :
  noWs (String c p) = true ->
  includes (trim s) (String c p) = includes s (String c p).
Proof.
  intros Hp. unfold trim.
  assert (Hc : wsByte c = false).
  { simpl in Hp. apply andb_true_iff in Hp as [Hc _]. now apply negb_true_iff in Hc. }
  destruct (trimStart_split s) as (w1 & Hs & H1).
  destruct (trimEnd_split (trimStart s)) as (w2 & Ht & H2).
  rewrite Hs at 2. rewrite includes_skip_front by assumption.
  rewrite Ht at 2. rewrite includes_skip_back by assumption. reflexivity.
Qed.

Lemma trim_empty_of_empty s : isEmpty s = true -> isEmpty (trim s) = true.
Proof. destruct s; [reflexivity | discriminate]. Qed.

End JsStringFacts.

Arguments JsString.trim : simpl never.
Arguments JsString.encodeURIComponent : simpl never.
Arguments JsString.includes : simpl never.
Arguments Resolve.opsinUrl : simpl never.
Arguments Resolve.cirUrl : simpl never.
Arguments Resolve.sdfBySmiles : simpl never.
Arguments Sdf.pubchemUrl : simpl never.
Arguments Sdf.cactusUrl : simpl never.
Arguments Sdf.altUrl : simpl never.
Arguments String.append : simpl never.

(** ** Running handlers *)

Lemma run_from_bind {A B} (c : Js A) (f : A -> Js B) up : forall history,
  run_from (bind c f) up history = after_bind f up (run_from c up history).
Proof.
  induction c as [[a | r | e] | url init k IH]; intros history; try reflexivity.
  cbn [bind run_from]. apply IH.
Qed.

Lemma run_from_try_catch {A} (c : Js A) (handler : JsError -> Js A) up : forall history,
  run_from (try_catch c handler) up history = after_catch handler up (run_from c up history).
Proof.
  induction c as [[a | r | e] | url init k IH]; intros history; try reflexivity.
  cbn [try_catch run_from]. apply IH.
Qed.

(** The fetch of a step, run; the rest of the step sees the response. *)
Lemma run_fetch {A} url init (k : FetchResponse -> Js A) up history :
  run_from (bind (fetch url init) k) up history
  = match up history url with
    | Rejected => (Throw FetchError, history ++ [url])
    | Resolved r => run_from (k r) up (history ++ [url])
    end.
Proof. cbn [fetch bind run_from]. destruct (up history url); reflexivity. Qed.

(** ** The steps of the chain *)

Section ResolveFacts.

Context {E : Engine}.
Import Resolve.

(** Reading a property that [Object.prototype] does not hold gives the own
    field, on everything but [null]. *)
Lemma get_prop_field data key :
  inherited key = false -> data <> JNull -> get_prop data key = pure (field data key).
Proof.
  intros Hkey Hnull. destruct data; try reflexivity; [congruence |].
  unfold get_prop, field, object_get. destruct (own fields key); [reflexivity |].
  rewrite Hkey. reflexivity.
Qed.

(** The OPSIN step falls through when Provider B fails. *)
Lemma opsinStep_fails originalName nm up history :
  opsin_fails (up history (opsinUrl (JsString.encodeURIComponent nm))) = true ->
  run_from (try_catch (opsinStep originalName (JStr nm)) (fun _ => pure tt)) up history
  = (Normal tt, history ++ [opsinUrl (JsString.encodeURIComponent nm)]).
Proof.
  intros Hfail. rewrite run_from_try_catch. unfold opsinStep.
  cbn [encodeURIComponent ToString pure bind]. rewrite run_fetch.
  destruct (up history _) as [|r]; [reflexivity |].
  cbn [opsin_fails] in Hfail.
  destruct (ok r); [| reflexivity].
  cbn [negb orb] in Hfail. unfold response_json.
  destruct (json r) as [data |]; [| reflexivity].
  cbn [pure bind].
  destruct data; try reflexivity.
  rewrite get_prop_field by (reflexivity || discriminate).
  cbn [pure bind]. apply negb_true_iff in Hfail. rewrite Hfail. reflexivity.
Qed.

(** The OPSIN step answers when Provider B gives a non-empty [smiles]
    string. *)
Lemma opsinStep_answers originalName nm up history r data s :
  up history (opsinUrl (JsString.encodeURIComponent nm)) = Resolved r ->
  ok r = true -> json r = Some data ->
  field data "smiles" = JStr s -> JsString.isEmpty s = false ->
  run_from (try_catch (opsinStep originalName (JStr nm)) (fun _ => pure tt)) up history
  = (Return (jsonResponse
               (JsonIdentity (opsinResult originalName (JStr s) (field data "stdinchi")
                                          (JsString.encodeURIComponent s))) 200),
     history ++ [opsinUrl (JsString.encodeURIComponent nm)]).
Proof.
  intros Hup Hok Hjson Hsmiles Hs. rewrite run_from_try_catch. unfold opsinStep.
  cbn [encodeURIComponent ToString pure bind]. rewrite run_fetch, Hup, Hok.
  unfold response_json. rewrite Hjson. cbn [pure bind].
  assert (Hdata : data <> JNull) by (intros ->; discriminate).
  rewrite !get_prop_field by (reflexivity || assumption).
  cbn [pure bind]. rewrite Hsmiles. cbn [truthy]. rewrite Hs. reflexivity.
Qed.

(** Whatever Provider B does, the OPSIN step fetches its one URL, and
    either falls through or answers with an identity tagged [opsin]. *)
Lemma opsinStep_total originalName nm up history :
  exists done,
    run_from (try_catch (opsinStep originalName (JStr nm)) (fun _ => pure tt)) up history
    = (done, history ++ [opsinUrl (JsString.encodeURIComponent nm)])
    /\ (done = Normal tt
        \/ exists identity, done = Return (jsonResponse (JsonIdentity identity) 200)
                            /\ source identity = "opsin").
Proof.
  rewrite run_from_try_catch. unfold opsinStep.
  cbn [encodeURIComponent ToString pure bind]. rewrite run_fetch.
  destruct (up history _) as [|r]; [eexists; split; [reflexivity | auto] |].
  destruct (ok r); [| eexists; split; [reflexivity | auto]].
  unfold response_json.
  destruct (json r) as [data |]; [| eexists; split; [reflexivity | auto]].
  cbn [pure bind].
  destruct data as [ | | | | | fields]; try (eexists; split; [reflexivity | auto]).
  unfold get_prop at 1. cbn [pure bind].
  destruct (truthy _) eqn:Htruthy; [| eexists; split; [reflexivity | auto]].
  unfold get_prop. cbn [pure bind]. unfold encodeURIComponent.
  destruct (ToString _); eexists; (split; [reflexivity |]); [right | left; reflexivity].
  eexists; split; reflexivity.
Qed.

(** The CIR step answers exactly when Provider C succeeds. *)
Lemma cirStep_run originalName nm up history :
  run_from (try_catch (cirStep originalName (JStr nm)) (fun _ => pure tt)) up history
  = (match cir_accepts (up history (cirUrl (JsString.encodeURIComponent nm))) with
     | Some trimmed =>
         Return (jsonResponse (JsonIdentity (cirResult originalName trimmed)) 200)
     | None => Normal tt
     end,
     history ++ [cirUrl (JsString.encodeURIComponent nm)]).
Proof.
  rewrite run_from_try_catch. unfold cirStep.
  cbn [encodeURIComponent ToString pure bind]. rewrite run_fetch.
  destruct (up history _) as [|r]; [reflexivity |].
  cbn [cir_accepts]. destruct (ok r); [| reflexivity].
  unfold response_text. destruct (text r) as [b |]; [| reflexivity].
  cbn [pure bind]. cbv zeta.
  rewrite (JsStringFacts.includes_trim b) by reflexivity.
  destruct (JsString.isEmpty b) eqn:Hb.
  - rewrite (JsStringFacts.trim_empty_of_empty b Hb). reflexivity.
  - cbn [negb andb]. destruct (_ && _); reflexivity.
Qed.

End ResolveFacts.

(** ** The resolution chain *)

Section ResolveClaims.

Context {E : Engine}.
Import Resolve.

Lemma mapped_names_not_empty key mapped :
  own COMPOUND_NAME_MAPPINGS key = Some mapped -> JsString.isEmpty mapped = false.
Proof.
  unfold COMPOUND_NAME_MAPPINGS. cbn [own].
  repeat (destruct (String.eqb _ key); [intros [= <-]; reflexivity |]).
  discriminate.
Qed.

Lemma object_get_absent {V} (fields : list (string * V)) key :
  object_get fields key = Absent -> own fields key = None /\ inherited key = false.
Proof.
  unfold object_get. destruct (own fields key); [discriminate |].
  destruct (inherited key); [discriminate | auto].
Qed.

(** Off the catalog the name sent upstream is a string: the mapped name or
    the lower-cased one. *)
Lemma queryName_miss originalName :
  object_get knownCompounds originalName = Absent ->
  queryName originalName = JStr (normalizedName originalName).
Proof.
  intros Hmiss. apply object_get_absent in Hmiss as [_ Hproto].
  unfold queryName, normalizedName, object_get.
  destruct (own COMPOUND_NAME_MAPPINGS originalName) as [mapped |] eqn:Hmapped.
  - rewrite (mapped_names_not_empty _ _ Hmapped). reflexivity.
  - rewrite Hproto. reflexivity.
Qed.

Lemma object_get_own {V} (fields : list (string * V)) key v :
  object_get fields key = Own v -> own fields key = Some v.
Proof.
  unfold object_get. destruct (own fields key); [congruence |].
  destruct (inherited key); discriminate.
Qed.

(** No member of [Object.prototype] is a key of the catalog. *)
Lemma inherited_not_known key :
  inherited key = true -> own knownCompounds key = None.
Proof.
  unfold inherited, Object_prototype_members. cbn [existsb].
  repeat match goal with
         | |- context [String.eqb key ?m] =>
             destruct (String.eqb_spec key m) as [-> | _]; [reflexivity |]
         end.
  discriminate.
Qed.

Lemma inherited_not_known_own key known :
  own knownCompounds key = Some known -> inherited key = false.
Proof.
  intros Hown. destruct (inherited key) eqn:Hproto; [| reflexivity].
  rewrite (inherited_not_known _ Hproto) in Hown. discriminate.
Qed.

(** A well-formed request enters the chain with its trimmed name. *)
Lemma POST_named requestJson n up :
  requestName requestJson = Some n ->
  run (POST requestJson) up
  = after_catch
      (fun _ => return_ (jsonResponse (JsonError "Failed to resolve molecule") 500))
      up (run_from (resolve (JsString.trim n)) up []).
Proof.
  intros Hname. unfold run, POST. rewrite run_from_try_catch. f_equal.
  destruct requestJson as [[ | | | | | fields] |]; try discriminate.
  cbn [requestName] in Hname. cbn [pure bind get_prop]. unfold object_get.
  destruct (own fields "name") as [[ | | | s | | ] |]; try discriminate.
  injection Hname as ->. reflexivity.
Qed.

(** Off the catalog the chain is the OPSIN step, the CIR step and the
    mock, in this order. *)
Lemma resolve_miss originalName up history :
  object_get knownCompounds originalName = Absent ->
  run_from (resolve originalName) up history
  = after_bind
      (fun _ =>
         bind (try_catch (cirStep originalName (JStr (normalizedName originalName)))
                         (fun _ => pure tt))
              (fun _ => return_ (jsonResponse
                                   (JsonIdentity (mockResult originalName)) 200)))
      up
      (run_from (try_catch (opsinStep originalName (JStr (normalizedName originalName)))
                           (fun _ => pure tt)) up history).
Proof.
  intros Hmiss. unfold resolve. cbv zeta. rewrite Hmiss, (queryName_miss _ Hmiss).
  apply run_from_bind.
Qed.

(** Without a string [name] the first statements of the [try] block
    throw, before anything is resolved. *)
Lemma unnamed_request_throws requestJson (rest : string -> Js unit) :
  requestName requestJson = None ->
  exists e,
    (body <- match requestJson with Some v => pure v | None => throw SyntaxError end ;;
     bodyName <- get_prop body "name" ;;
     originalName <- call_trim bodyName ;;
     rest originalName)%js
    = throw e.
Proof.
  intros Hname.
  destruct requestJson as [[ | | | | | fields] |]; try (eexists; reflexivity).
  cbn [requestName] in Hname. cbn [pure bind get_prop]. unfold object_get.
  destruct (own fields "name") as [[ | | | s | | ] |];
    try discriminate; eexists; reflexivity.
Qed.

(** C10. A request whose body is not JSON, or has no string [name], is
    not resolved: the handler's outer [catch] answers HTTP 500 with an
    error body, and nothing is fetched. *)
Theorem malformed_request_is_500 requestJson up :
  requestName requestJson = None ->
  run (POST requestJson) up
  = (Return (jsonResponse (JsonError "Failed to resolve molecule") 500), []).
Proof.
  intros Hname. unfold run, POST.
  destruct (unnamed_request_throws requestJson resolve Hname) as [e ->].
  reflexivity.
Qed.

(** A name that [Object.prototype] holds is found by the catalog test,
    though the catalog has no such compound.  The handler hands the
    inherited member to [NextResponse.json]: for a function that throws,
    and the outer [catch] answers HTTP 500; for [__proto__] the answer is
    the prototype object, written as an empty object.  Nothing is
    fetched. *)
Lemma POST_inherited requestJson n up :
  requestName requestJson = Some n ->
  inherited (JsString.trim n) = true ->
  run (POST requestJson) up
  = (Return (if String.eqb (JsString.trim n) "__proto__"
             then jsonResponse (JsonValue (Builtin "__proto__")) 200
             else jsonResponse (JsonError "Failed to resolve molecule") 500),
     []).
Proof.
  intros Hname Hproto. rewrite (POST_named _ _ _ Hname).
  unfold resolve, object_get. rewrite (inherited_not_known _ Hproto), Hproto.
  unfold return_json, NextResponse_json. cbn [hasJsonText].
  destruct (String.eqb_spec (JsString.trim n) "__proto__") as [-> | _]; reflexivity.
Qed.

(** Where the handler's own catalog test finds nothing and the providers
    fail, the handler returns the mock identity: tagged as the
    placeholder, with the SMILES CCO.  It returns; it does not throw. *)
Lemma all_fail_gives_placeholder requestJson n up :
  let originalName := JsString.trim n in
  let encoded := JsString.encodeURIComponent (normalizedName originalName) in
  requestName requestJson = Some n ->
  object_get knownCompounds originalName = Absent ->
  opsin_fails (up [] (opsinUrl encoded)) = true ->
  cir_accepts (up [opsinUrl encoded] (cirUrl encoded)) = None ->
  run (POST requestJson) up
  = (Return (jsonResponse (JsonIdentity (mockResult originalName)) 200),
     [opsinUrl encoded; cirUrl encoded])
  /\ provenance (source (mockResult originalName)) = Some Placeholder
  /\ smiles (mockResult originalName) = JStr "CCO".
Proof.
  intros originalName encoded Hname Hmiss Hopsin Hcir.
  split; [| split; reflexivity].
  rewrite (POST_named _ _ _ Hname), (resolve_miss _ _ _ Hmiss).
  rewrite opsinStep_fails by exact Hopsin.
  cbn [after_bind app]. rewrite run_from_bind, cirStep_run.
  fold originalName encoded. rewrite Hcir. reflexivity.
Qed.

(** C2, amended. A name that is a key of the catalog is answered with
    its entry at once, nothing being fetched, whatever the upstream; the
    entry carries the tag [pubchem], Provider A's, as every entry does. *)
Theorem catalog_hit requestJson n up entry :
  requestName requestJson = Some n ->
  own knownCompounds n = Some entry ->
  run (POST requestJson) up = (Return (jsonResponse (JsonIdentity entry) 200), [])
  /\ source entry = "pubchem"
  /\ provenance (source entry) = Some ProviderA.
Proof.
  intros Hname Hentry. rewrite (POST_named _ _ _ Hname).
  revert Hentry. unfold knownCompounds at 1. cbn [own].
  repeat match goal with
         | |- context [String.eqb ?key n] =>
             destruct (String.eqb_spec key n) as [<- | _];
             [intros [= <-]; repeat split; reflexivity |]
         end.
  discriminate.
Qed.

(** Off the catalog the handler ends in one of two ways: Provider B's
    step answers after one fetch, or it falls through and the result is
    Provider C's or the mock after two. *)
Lemma miss_outcomes requestJson n up :
  let originalName := JsString.trim n in
  let encoded := JsString.encodeURIComponent (normalizedName originalName) in
  requestName requestJson = Some n ->
  object_get knownCompounds originalName = Absent ->
  (exists identity,
      source identity = "opsin"
      /\ run (POST requestJson) up
         = (Return (jsonResponse (JsonIdentity identity) 200), [opsinUrl encoded]))
  \/ run (POST requestJson) up
     = (Return (jsonResponse
                  (JsonIdentity
                     match cir_accepts (up [opsinUrl encoded] (cirUrl encoded)) with
                     | Some trimmed => cirResult originalName trimmed
                     | None => mockResult originalName
                     end) 200),
        [opsinUrl encoded; cirUrl encoded]).
Proof.
  intros originalName encoded Hname Hmiss.
  rewrite (POST_named _ _ _ Hname), (resolve_miss _ _ _ Hmiss).
  destruct (opsinStep_total originalName (normalizedName originalName) up [])
    as (done & -> & [-> | (identity & -> & Hsource)]).
  - right. cbn [after_bind app]. rewrite run_from_bind, cirStep_run.
    fold originalName encoded. destruct (cir_accepts _); reflexivity.
  - left. exists identity. split; [exact Hsource | reflexivity].
Qed.

(** C3, amended. Off the catalog Provider A is never asked: whatever the
    upstream would answer, the chain starts at Provider B, fetches
    Provider B's URL and then at most Provider C's, and returns an
    identity tagged [opsin], [cir] or [mock]. *)
Theorem chain_starts_at_providerB requestJson n up :
  let originalName := JsString.trim n in
  let encoded := JsString.encodeURIComponent (normalizedName originalName) in
  requestName requestJson = Some n ->
  object_get knownCompounds originalName = Absent ->
  exists identity,
    fst (run (POST requestJson) up)
    = Return (jsonResponse (JsonIdentity identity) 200)
    /\ (source identity = "opsin" \/ source identity = "cir" \/ source identity = "mock")
    /\ (snd (run (POST requestJson) up) = [opsinUrl encoded]
        \/ snd (run (POST requestJson) up) = [opsinUrl encoded; cirUrl encoded]).
Proof.
  intros originalName encoded Hname Hmiss.
  destruct (miss_outcomes requestJson n up Hname Hmiss)
    as [(identity & Hsource & ->) | ->].
  - exists identity. cbn [fst snd]. auto.
  - fold originalName encoded. cbn [fst snd].
    destruct (cir_accepts _); eexists; (split; [reflexivity |]); auto.
Qed.

(** C4, amended. Off the catalog, when Provider B responds successfully
    with a non-empty [smiles] string, the result is tagged [opsin], has
    that SMILES, and has the response's [stdinchi] as its InChI (unset
    only if the response has none); id, formula and weight are unset. *)
Theorem providerB_answer requestJson n up r data s :
  let originalName := JsString.trim n in
  let encoded := JsString.encodeURIComponent (normalizedName originalName) in
  requestName requestJson = Some n ->
  object_get knownCompounds originalName = Absent ->
  up [] (opsinUrl encoded) = Resolved r ->
  ok r = true ->
  json r = Some data ->
  field data "smiles" = JStr s ->
  JsString.isEmpty s = false ->
  run (POST requestJson) up
  = (Return (jsonResponse
               (JsonIdentity
                  {| source := "opsin";
                     name := originalName;
                     cid := Undefined;
                     smiles := JStr s;
                     inchi := field data "stdinchi";
                     sdf3d_url := sdfBySmiles (JsString.encodeURIComponent s);
                     molecular_formula := Undefined;
                     molecular_weight := Undefined |}) 200),
     [opsinUrl encoded]).
Proof.
  intros originalName encoded Hname Hmiss Hup Hok Hjson Hsmiles Hs.
  rewrite (POST_named _ _ _ Hname), (resolve_miss _ _ _ Hmiss).
  rewrite (opsinStep_answers _ _ _ _ r data s) by assumption.
  reflexivity.
Qed.

(** C5. Once Provider B has failed, Provider C decides.  When its
    response is successful and its trimmed body is non-empty and free of
    the marker, the result is tagged [cir], Provider C's tag, and its
    SMILES is the trimmed body; id, InChI, formula and weight are unset.
    Every other outcome of Provider C gives the placeholder: the tag
    [mock] and the SMILES CCO. *)
Theorem providerC_decides requestJson n up :
  let originalName := JsString.trim n in
  let encoded := JsString.encodeURIComponent (normalizedName originalName) in
  requestName requestJson = Some n ->
  object_get knownCompounds originalName = Absent ->
  opsin_fails (up [] (opsinUrl encoded)) = true ->
  run (POST requestJson) up
  = (Return (jsonResponse
               (JsonIdentity
                  match cir_accepts (up [opsinUrl encoded] (cirUrl encoded)) with
                  | Some trimmed =>
                      {| source := "cir";
                         name := originalName;
                         cid := Undefined;
                         smiles := JStr trimmed;
                         inchi := Undefined;
                         sdf3d_url := sdfBySmiles (JsString.encodeURIComponent trimmed);
                         molecular_formula := Undefined;
                         molecular_weight := Undefined |}
                  | None =>
                      {| source := "mock";
                         name := originalName;
                         cid := Undefined;
                         smiles := JStr "CCO";
                         inchi := Undefined;
                         sdf3d_url := sdfBySmiles "CCO";
                         molecular_formula := JStr "C2H6O";
                         molecular_weight := JNum 46.07 |}
                  end) 200),
     [opsinUrl encoded; cirUrl encoded])
  /\ provenance "cir" = Some ProviderC
  /\ provenance "mock" = Some Placeholder.
Proof.
  intros originalName encoded Hname Hmiss Hopsin.
  split; [| split; reflexivity].
  rewrite (POST_named _ _ _ Hname), (resolve_miss _ _ _ Hmiss).
  rewrite opsinStep_fails by exact Hopsin.
  cbn [after_bind app]. rewrite run_from_bind, cirStep_run.
  fold originalName encoded. destruct (cir_accepts _); reflexivity.
Qed.

Lemma object_get_inherited {V} (fields : list (string * V)) key m :
  object_get fields key = Inherited m -> inherited key = true.
Proof.
  unfold object_get. destruct (own fields key); [discriminate |].
  destruct (inherited key); [reflexivity | discriminate].
Qed.

(** A request with a string [name] is answered with status 200, unless
    the name is a function that [Object.prototype] holds: then with 500. *)
Lemma named_request_is_answered requestJson n up :
  requestName requestJson = Some n ->
  exists answer,
    fst (run (POST requestJson) up)
    = Return (jsonResponse answer
                (if inheritedFunction (JsString.trim n) then 500 else 200)%Z).
Proof.
  intros Hname. unfold inheritedFunction.
  destruct (object_get knownCompounds (JsString.trim n)) as [known | m |] eqn:Hget.
  - apply object_get_own in Hget. rewrite (inherited_not_known_own _ _ Hget).
    rewrite (POST_named _ _ _ Hname). unfold resolve, object_get. rewrite Hget.
    eexists; reflexivity.
  - apply object_get_inherited in Hget.
    rewrite (POST_inherited _ _ _ Hname Hget), Hget. cbn [andb fst].
    destruct (String.eqb _ "__proto__"); eexists; reflexivity.
  - destruct (object_get_absent _ _ Hget) as [_ ->]. cbn [andb].
    destruct (miss_outcomes requestJson n up Hname Hget) as [(identity & _ & ->) | ->];
      eexists; reflexivity.
Qed.

(** Whatever the request and the upstream, the handler returns a
    response; no exception leaves it. *)
Lemma POST_always_returns requestJson up :
  exists response, fst (run (POST requestJson) up) = Return response.
Proof.
  destruct (requestName requestJson) as [n |] eqn:Hname.
  - destruct (named_request_is_answered requestJson n up Hname) as [answer ->].
    eexists; reflexivity.
  - unfold run, POST.
    destruct (unnamed_request_throws requestJson resolve Hname) as [e ->].
    eexists; reflexivity.
Qed.

End ResolveClaims.

(** ** Determinism *)

(** A handler has no source of chance: two upstreams that hand a program
    the same responses lead it to the same completion, by way of the same
    fetches. *)
Lemma run_from_deterministic {A} (p : Prog A) up1 up2 : forall history,
  received_from p up1 history = received_from p up2 history ->
  run_from p up1 history = run_from p up2 history.
Proof.
  induction p as [a | url init k IH]; intros history Hsame; [reflexivity |].
  cbn [received_from] in Hsame. injection Hsame as Hhead Htail.
  cbn [run_from]. rewrite <- Hhead in *. apply IH, Htail.
Qed.

(** C9. Two resolution calls with the same request that receive the same
    upstream responses, step by step, end with the same result (and have
    fetched the same URLs). *)
Theorem resolve_is_deterministic {E : Engine} requestJson up1 up2 :
  received (Resolve.POST requestJson) up1 = received (Resolve.POST requestJson) up2 ->
  run (Resolve.POST requestJson) up1 = run (Resolve.POST requestJson) up2.
Proof. apply run_from_deterministic. Qed.

(** ** The structure-file proxy *)

Section SdfClaims.

Import Sdf.

(** How [return NextResponse.json({ error }, { status })] ends. *)
Lemma return_json_error (message : string) st up history :
  run_from (return_json (A := unit) (JsonError message) st) up history
  = (if Response_accepts st
     then Return (jsonResponse (JsonError message) st)
     else Throw (Response_refusal st),
     history).
Proof.
  unfold return_json, NextResponse_json. cbn [hasJsonText].
  destruct (Response_accepts st); reflexivity.
Qed.

Lemma byCid_run cid up history :
  run_from (byCid cid) up history
  = (relay "Failed to fetch SDF: " (up history (pubchemUrl cid)),
     history ++ [pubchemUrl cid]).
Proof.
  unfold byCid. rewrite run_fetch. unfold relay.
  destruct (up history _) as [| r]; [reflexivity |].
  destruct (ok r); cbn [negb].
  - unfold response_text. destruct (text r); reflexivity.
  - rewrite return_json_error. destruct (Response_accepts _); reflexivity.
Qed.

Lemma bySmiles_run smiles get3d up history :
  let id := JsString.encodeURIComponent smiles in
  let want3d := match get3d with Some s => String.eqb s "true" | None => false end in
  let first := up history (cactusUrl id want3d) in
  run_from (bySmiles smiles get3d) up history
  = match first with
    | Rejected => (Throw FetchError, history ++ [cactusUrl id want3d])
    | Resolved r =>
        if ok r then
          (relay "Failed to fetch SDF from Cactus: " first, history ++ [cactusUrl id want3d])
        else
          (relay "Failed to fetch SDF from Cactus: "
                 (up (history ++ [cactusUrl id want3d]) (altUrl id want3d)),
           (history ++ [cactusUrl id want3d]) ++ [altUrl id want3d])
    end.
Proof.
  intros id want3d first. unfold bySmiles. fold id want3d.
  rewrite run_fetch. fold first. unfold relay.
  destruct first as [| r1]; [reflexivity |].
  destruct (ok r1) eqn:Hok1; cbn [negb].
  - cbn [pure bind]. rewrite Hok1. cbn [negb].
    unfold response_text. destruct (text r1); reflexivity.
  - rewrite run_fetch.
    destruct (up _ (altUrl id want3d)) as [| r2]; [reflexivity |].
    destruct (ok r2); cbn [negb].
    + unfold response_text. destruct (text r2); reflexivity.
    + rewrite return_json_error. destruct (Response_accepts _); reflexivity.
Qed.

(** A block of the proxy ends in a [return] or a [throw]; what follows it
    in the handler does not run. *)
Lemma after_bind_relay (rest : unit -> Js unit) up label o history :
  after_bind rest up (relay label o, history) = (relay label o, history).
Proof.
  destruct o as [| r]; [reflexivity |]. cbn [relay].
  destruct (ok r); [destruct (text r) | destruct (Response_accepts _)]; reflexivity.
Qed.

(** With an id, the handler is the id block under the outer [catch]. *)
Lemma GET_by_id_run searchParams cid up :
  get searchParams "cid" = Some cid ->
  JsString.isEmpty cid = false ->
  run (GET searchParams) up
  = after_catch failed up
      (relay "Failed to fetch SDF: " (up [] (pubchemUrl cid)), [pubchemUrl cid]).
Proof.
  intros Hcid Hnonempty.
  unfold run, GET. rewrite run_from_try_catch. cbv zeta. rewrite Hcid.
  cbn [present whenPresent]. rewrite Hnonempty. cbn [negb andb].
  rewrite run_from_bind, byCid_run. cbn [app].
  now rewrite after_bind_relay.
Qed.

(** With a SMILES and no id, the handler is the SMILES block under the
    outer [catch]. *)
Lemma GET_by_smiles_run searchParams smiles up :
  present (get searchParams "cid") = false ->
  get searchParams "smiles" = Some smiles ->
  JsString.isEmpty smiles = false ->
  run (GET searchParams) up
  = after_catch failed up (run_from (bySmiles smiles (get searchParams "get3d")) up []).
Proof.
  intros Hcid Hsmiles Hnonempty.
  unfold run, GET. rewrite run_from_try_catch. cbv zeta. rewrite Hcid, Hsmiles.
  cbn [present]. rewrite Hnonempty. cbn [negb andb].
  rewrite run_from_bind.
  assert (Hskip : run_from (whenPresent (get searchParams "cid") byCid) up []
                  = (Normal tt, [])).
  { destruct (get searchParams "cid") as [c |]; [| reflexivity].
    cbn [present] in Hcid. apply negb_false_iff in Hcid.
    cbn [whenPresent]. rewrite Hcid. reflexivity. }
  rewrite Hskip. cbn [after_bind whenPresent]. rewrite Hnonempty.
  rewrite run_from_bind, bySmiles_run.
  destruct (up [] _) as [| r1]; [reflexivity |].
  destruct (ok r1); now rewrite after_bind_relay.
Qed.

(** What the outer [catch] makes of the end of a block: a response is
    handed on, an exception becomes HTTP 500. *)
Lemma after_catch_relay_cases up label o history :
  after_catch failed up (relay label o, history)
  = (Return
       match relay label o with
       | Return response => response
       | _ => jsonResponse (JsonError "Failed to fetch SDF data") 500
       end,
     history).
Proof.
  destruct o as [| r]; [reflexivity |]. cbn [relay].
  destruct (ok r); [destruct (text r) | destruct (Response_accepts _)]; reflexivity.
Qed.

(** C6. A request with neither [cid] nor [smiles] is answered HTTP 400,
    and nothing is fetched. *)
Theorem neither_parameter_is_400 searchParams up :
  get searchParams "cid" = None ->
  get searchParams "smiles" = None ->
  run (GET searchParams) up
  = (Return (jsonResponse (JsonError "cid or smiles parameter required") 400), []).
Proof. intros Hcid Hsmiles. unfold run, GET. rewrite Hcid, Hsmiles. reflexivity. Qed.

(** The same holds when the two parameters are there but empty. *)
Lemma empty_parameters_are_400 searchParams up :
  present (get searchParams "cid") = false ->
  present (get searchParams "smiles") = false ->
  run (GET searchParams) up
  = (Return (jsonResponse (JsonError "cid or smiles parameter required") 400), []).
Proof. intros Hcid Hsmiles. unfold run, GET. cbv zeta. rewrite Hcid, Hsmiles. reflexivity. Qed.

(** A request with an id makes one fetch, of PubChem's 3D record of that
    id.  A 2xx answer is passed on: status 200, the upstream body as it
    is, content type chemical/x-mdl-sdfile.  A non-2xx answer becomes an
    error response with the upstream status when a response can be made
    with that status; when it cannot (304, a status outside 200..599)
    making the response throws, and the outer [catch] answers 500. *)
Lemma proxy_by_id searchParams cid up :
  get searchParams "cid" = Some cid ->
  JsString.isEmpty cid = false ->
  snd (run (GET searchParams) up) = [pubchemUrl cid]
  /\ forall r, up [] (pubchemUrl cid) = Resolved r ->
       (ok r = true -> forall sdfData, text r = Some sdfData ->
          fst (run (GET searchParams) up)
          = Return {| status := 200; headers := sdfHeaders; body := Text sdfData |}
          /\ own sdfHeaders "Content-Type" = Some "chemical/x-mdl-sdfile")
       /\ (ok r = false ->
             fst (run (GET searchParams) up)
             = Return (if Response_accepts (fstatus r)
                       then jsonResponse
                              (JsonError ("Failed to fetch SDF: " ++ statusText r))
                              (fstatus r)
                       else jsonResponse (JsonError "Failed to fetch SDF data") 500)).
Proof.
  intros Hcid Hnonempty.
  rewrite (GET_by_id_run _ _ _ Hcid Hnonempty), after_catch_relay_cases.
  split; [reflexivity |].
  intros r Hup. rewrite Hup. cbn [relay fst]. split.
  - intros -> sdfData ->. split; reflexivity.
  - intros ->. destruct (Response_accepts _); reflexivity.
Qed.

(** A transport failure of the primary endpoint is not retried: the
    outer [catch] answers HTTP 500. *)
Lemma proxy_rejected_is_500 searchParams smiles up :
  let id := JsString.encodeURIComponent smiles in
  let want3d := match get searchParams "get3d" with
                | Some s => String.eqb s "true"
                | None => false
                end in
  present (get searchParams "cid") = false ->
  get searchParams "smiles" = Some smiles ->
  JsString.isEmpty smiles = false ->
  up [] (cactusUrl id want3d) = Rejected ->
  run (GET searchParams) up
  = (Return (jsonResponse (JsonError "Failed to fetch SDF data") 500),
     [cactusUrl id want3d]).
Proof.
  intros id want3d Hcid Hsmiles Hnonempty Hprimary.
  rewrite (GET_by_smiles_run _ _ _ Hcid Hsmiles Hnonempty), bySmiles_run.
  fold id want3d. rewrite Hprimary. reflexivity.
Qed.

(** C8, amended. A request with a SMILES and no id.  When the primary
    Cactus endpoint answers with a non-2xx status, the alternate endpoint
    is fetched, once, and nothing else; a 2xx answer of the alternate is
    passed on with status 200 and its body, and a non-2xx answer becomes
    an error response with the alternate's status, when a response can
    carry that status.  When the fetch of the primary endpoint is
    rejected, the alternate is not tried: the answer is HTTP 500 after
    that one fetch. *)
Theorem proxy_retries_once searchParams smiles up :
  let id := JsString.encodeURIComponent smiles in
  let want3d := match get searchParams "get3d" with
                | Some s => String.eqb s "true"
                | None => false
                end in
  present (get searchParams "cid") = false ->
  get searchParams "smiles" = Some smiles ->
  JsString.isEmpty smiles = false ->
  (forall primary,
     up [] (cactusUrl id want3d) = Resolved primary ->
     ok primary = false ->
     snd (run (GET searchParams) up) = [cactusUrl id want3d; altUrl id want3d]
     /\ forall alternate,
          up [cactusUrl id want3d] (altUrl id want3d) = Resolved alternate ->
          (ok alternate = true -> forall sdfData, text alternate = Some sdfData ->
             fst (run (GET searchParams) up)
             = Return {| status := 200; headers := sdfHeaders; body := Text sdfData |})
          /\ (ok alternate = false ->
              Response_accepts (fstatus alternate) = true ->
                fst (run (GET searchParams) up)
                = Return (jsonResponse
                            (JsonError ("Failed to fetch SDF from Cactus: "
                                        ++ statusText alternate))
                            (fstatus alternate))))
  /\ (up [] (cactusUrl id want3d) = Rejected ->
      run (GET searchParams) up
      = (Return (jsonResponse (JsonError "Failed to fetch SDF data") 500),
         [cactusUrl id want3d])).
Proof.
  intros id want3d Hcid Hsmiles Hnonempty. split.
  - intros primary Hprimary Hfailed.
    rewrite (GET_by_smiles_run _ _ _ Hcid Hsmiles Hnonempty), bySmiles_run.
    fold id want3d. rewrite Hprimary, Hfailed. cbn [app].
    rewrite after_catch_relay_cases. split; [reflexivity |].
    intros alternate Hup. rewrite Hup. cbn [relay fst]. split.
    + intros -> sdfData ->. reflexivity.
    + intros -> ->. reflexivity.
  - intros Hprimary.
    rewrite (GET_by_smiles_run _ _ _ Hcid Hsmiles Hnonempty), bySmiles_run.
    fold id want3d. rewrite Hprimary. reflexivity.
Qed.

End SdfClaims.

(** ** The theorems at concrete inputs *)

(** C1, at the failing input.  [toString] is no key of the catalog and no
    provider can be reached, so the placeholder is due.  But the catalog
    test [knownCompounds[originalName]] finds the function that every
    object inherits from [Object.prototype]; [NextResponse.json] throws on
    it, and the outer [catch] answers HTTP 500 with an error body.  No
    provider is asked and no identity is returned. *)
Theorem inherited_name_gets_no_placeholder :
  own Resolve.knownCompounds "toString" = None
  /\ opsin_fails (unreachable [] (Resolve.opsinUrl "tostring")) = true
  /\ cir_accepts (unreachable [ Resolve.opsinUrl "tostring" ] (Resolve.cirUrl "tostring"))
     = None
  /\ run (Resolve.POST (E := ascii_engine) (named "toString")) unreachable
     = (Return (jsonResponse (JsonError "Failed to resolve molecule") 500), []).
Proof. repeat split; reflexivity. Qed.

(** The same test finds the prototype object under [__proto__]; that has a
    JSON text, the empty object, and is the answer. *)
Example proto_name_gets_the_prototype :
  run (Resolve.POST (E := ascii_engine) (named "__proto__")) unreachable
  = (Return (jsonResponse (JsonValue (Builtin "__proto__")) 200), []).
Proof. reflexivity. Qed.

(** The catalog test is case-sensitive and sees the trimmed name. *)
Example lower_case_name_misses :
  run (Resolve.POST (E := ascii_engine) (named "aspirin")) unreachable
  = (Return (jsonResponse (JsonIdentity (Resolve.mockResult "aspirin")) 200),
     [ "https://opsin.ch.cam.ac.uk/opsin/aspirin.json";
       "https://cactus.nci.nih.gov/chemical/structure/aspirin/smiles" ]).
Proof. reflexivity. Qed.

Example padded_name_hits :
  snd (run (Resolve.POST (E := ascii_engine) (named "  Metformin ")) unreachable) = []
  /\ exists known,
       own Resolve.knownCompounds "Metformin" = Some known
       /\ fst (run (Resolve.POST (E := ascii_engine) (named "  Metformin ")) unreachable)
          = Return (jsonResponse (JsonIdentity known) 200).
Proof. split; [reflexivity | eexists; split; reflexivity]. Qed.

(** A mapped name that the catalog does not hold goes upstream under its
    mapping, percent-encoded. *)
Example mapped_name_is_encoded :
  snd (run (Resolve.POST (E := ascii_engine) (named "Valproic Acid")) unreachable)
  = [ "https://opsin.ch.cam.ac.uk/opsin/valproic%20acid.json";
      "https://cactus.nci.nih.gov/chemical/structure/valproic%20acid/smiles" ].
Proof. reflexivity. Qed.

(** With both parameters the proxy takes the id. *)
Example id_goes_first :
  snd (run (Sdf.GET [ ("smiles", "CCO"); ("cid", "2244") ]) unreachable)
  = [ "https://pubchem.ncbi.nlm.nih.gov/rest/pug/compound/cid/2244/record/SDF?record_type=3d" ].
Proof. reflexivity. Qed.

(** The 3D variant of the two Cactus endpoints. *)
Example retry_keeps_get3d :
  snd (run (Sdf.GET [ ("smiles", "C=O"); ("get3d", "true") ])
           (fun _ _ => replies 503 "Service Unavailable" (Some "") None))
  = [ "https://cactus.nci.nih.gov/chemical/structure/C%3DO/sdf?get3d=true";
      "https://cactus.nci.nih.gov/chemical/structure/C%3DO/file?format=sdf&get3d=true" ].
Proof. reflexivity. Qed.

(** The names [.] and [..] go upstream as they are: in the resolver's URL
    they are dot segments. *)
Example dot_name_is_a_dot_segment :
  snd (run (Resolve.POST (E := ascii_engine) (named "..")) unreachable)
  = [ "https://opsin.ch.cam.ac.uk/opsin/...json";
      "https://cactus.nci.nih.gov/chemical/structure/../smiles" ].
Proof. reflexivity. Qed.

Example dot_smiles_is_a_dot_segment :
  snd (run (Sdf.GET [ ("smiles", ".."); ("get3d", "true") ]) unreachable)
  = [ "https://cactus.nci.nih.gov/chemical/structure/../sdf?get3d=true" ].
Proof. reflexivity. Qed.

(** On the SMILES path as well, an upstream status that no response with
    a body can carry is answered HTTP 500. *)
Example alternate_not_modified_is_500 :
  run (Sdf.GET [ ("smiles", "CCO") ])
      (fun _ _ => replies 304 "Not Modified" (Some "") None)
  = (Return (jsonResponse (JsonError "Failed to fetch SDF data") 500),
     [ "https://cactus.nci.nih.gov/chemical/structure/CCO/sdf";
       "https://cactus.nci.nih.gov/chemical/structure/CCO/file?format=sdf" ]).
Proof. reflexivity. Qed.

(** A status that a response can carry is handed on. *)
Example not_found_is_relayed :
  run (Sdf.GET [ ("cid", "2244") ])
      (fun _ _ => replies 404 "Not Found" (Some "") None)
  = (Return (jsonResponse (JsonError "Failed to fetch SDF: Not Found") 404),
     [ "https://pubchem.ncbi.nlm.nih.gov/rest/pug/compound/cid/2244/record/SDF?record_type=3d" ]).
Proof. reflexivity. Qed.

(** A name that nothing knows gets the placeholder. *)
Example unknown_name_gets_placeholder :
  run (Resolve.POST (E := ascii_engine) (named " caffeine ")) unreachable
  = (Return (jsonResponse (JsonIdentity (Resolve.mockResult "caffeine")) 200),
     [ "https://opsin.ch.cam.ac.uk/opsin/caffeine.json";
       "https://cactus.nci.nih.gov/chemical/structure/caffeine/smiles" ]).
Proof.
  exact (proj1 (all_fail_gives_placeholder (E := ascii_engine)
                  (named " caffeine ") " caffeine " unreachable
                  eq_refl eq_refl eq_refl eq_refl)).
Qed.

(** C2 as worded fails on Aspirin: the entry's tag is Provider A's, not a
    catalog tag. *)
Lemma catalog_claim_fails :
  ~ catalog_claim (E := ascii_engine) (named "Aspirin") "Aspirin" unreachable.
Proof.
  intros Hclaim.
  destruct (Hclaim eq_refl _ eq_refl) as [_ Htag].
  discriminate Htag.
Qed.

Lemma catalog_hit_witness :
  run (Resolve.POST (E := ascii_engine) (named "Aspirin")) unreachable
  = (Return (jsonResponse
               (JsonIdentity
                  {| source := "pubchem";
                     name := "Aspirin";
                     cid := JNum 2244;
                     smiles := JStr "CC(=O)OC1=CC=CC=C1C(=O)O";
                     inchi := JStr "InChI=1S/C9H8O4/c1-6(10)13-8-5-3-2-4-7(8)9(11)12/h2-5H,1H3,(H,11,12)";
                     sdf3d_url := "/api/molecule/sdf?cid=2244";
                     molecular_formula := JStr "C9H8O4";
                     molecular_weight := JNum 180.16 |}) 200),
     []).
Proof.
  exact (proj1 (catalog_hit (E := ascii_engine) (named "Aspirin") "Aspirin" unreachable _
                  eq_refl eq_refl)).
Defined.

(** C3 as worded fails on Ibuprofen: PubChem would answer, and the result
    is the mock. *)
Lemma providerA_claim_fails :
  ~ providerA_claim (E := ascii_engine) (named "Ibuprofen") "Ibuprofen" pubchemOnly
      ibuprofenProperties.
Proof.
  intros Hclaim.
  destruct Hclaim as (identity & Hrun & Htag & _).
  - reflexivity.
  - reflexivity.
  - exists 3672, "3672". repeat split; intros; reflexivity.
  - vm_compute in Hrun. injection Hrun as <-. discriminate Htag.
Qed.

Lemma chain_starts_at_providerB_witness :
  exists identity,
    fst (run (Resolve.POST (E := ascii_engine) (named "Ibuprofen")) pubchemOnly)
    = Return (jsonResponse (JsonIdentity identity) 200)
    /\ (source identity = "opsin" \/ source identity = "cir" \/ source identity = "mock")
    /\ (snd (run (Resolve.POST (E := ascii_engine) (named "Ibuprofen")) pubchemOnly)
        = [ Resolve.opsinUrl "ibuprofen" ]
        \/ snd (run (Resolve.POST (E := ascii_engine) (named "Ibuprofen")) pubchemOnly)
           = [ Resolve.opsinUrl "ibuprofen"; Resolve.cirUrl "ibuprofen" ]).
Proof.
  exact (chain_starts_at_providerB (E := ascii_engine) (named "Ibuprofen") "Ibuprofen"
           pubchemOnly eq_refl eq_refl).
Defined.

(** C4 as worded fails on ethanol: OPSIN's [stdinchi] becomes the InChI
    of the result. *)
Lemma providerB_claim_fails :
  ~ providerB_claim (E := ascii_engine) (named "ethanol") "ethanol" opsinEthanol "CCO".
Proof.
  intros Hclaim.
  destruct Hclaim as (identity & Hrun & _ & _ & Hinchi & _).
  - reflexivity.
  - reflexivity.
  - intros properties (c & cidText & Hcid & _).
    specialize (Hcid []). discriminate Hcid.
  - reflexivity.
  - vm_compute in Hrun. injection Hrun as <-. discriminate Hinchi.
Qed.

Lemma providerB_answer_witness :
  run (Resolve.POST (E := ascii_engine) (named "ethanol")) opsinEthanol
  = (Return (jsonResponse
               (JsonIdentity
                  {| source := "opsin";
                     name := "ethanol";
                     cid := Undefined;
                     smiles := JStr "CCO";
                     inchi := JStr "InChI=1S/C2H6O/c1-2-3/h3H,2H2,1H3";
                     sdf3d_url := "/api/molecule/sdf?smiles=CCO&get3d=true";
                     molecular_formula := Undefined;
                     molecular_weight := Undefined |}) 200),
     [ "https://opsin.ch.cam.ac.uk/opsin/ethanol.json" ]).
Proof.
  exact (providerB_answer (E := ascii_engine) (named "ethanol") "ethanol" opsinEthanol
           {| fstatus := 200; statusText := "OK"; text := None;
              json := Some (JObj [ ("smiles", JStr "CCO");
                                   ("stdinchi", JStr "InChI=1S/C2H6O/c1-2-3/h3H,2H2,1H3") ]) |}
           _ "CCO" eq_refl eq_refl eq_refl eq_refl eq_refl eq_refl eq_refl).
Defined.

Lemma providerC_decides_witness :
  run (Resolve.POST (E := ascii_engine) (named "ethanol")) cirEthanol
  = (Return (jsonResponse
               (JsonIdentity
                  {| source := "cir";
                     name := "ethanol";
                     cid := Undefined;
                     smiles := JStr "CCO";
                     inchi := Undefined;
                     sdf3d_url := "/api/molecule/sdf?smiles=CCO&get3d=true";
                     molecular_formula := Undefined;
                     molecular_weight := Undefined |}) 200),
     [ "https://opsin.ch.cam.ac.uk/opsin/ethanol.json";
       "https://cactus.nci.nih.gov/chemical/structure/ethanol/smiles" ]).
Proof.
  exact (proj1 (providerC_decides (E := ascii_engine) (named "ethanol") "ethanol"
                  cirEthanol eq_refl eq_refl eq_refl)).
Defined.

Lemma neither_parameter_is_400_witness :
  run (Sdf.GET [ ("get3d", "true") ]) unreachable
  = (Return (jsonResponse (JsonError "cid or smiles parameter required") 400), []).
Proof.
  exact (neither_parameter_is_400 [ ("get3d", "true") ] unreachable eq_refl eq_refl).
Defined.

(** The stub of the specification: PubChem serves the record of 4091. *)
Example proxy_by_id_passes_on :
  run (Sdf.GET [ ("cid", "4091") ]) stubPubchem
  = (Return {| status := 200;
               headers := [ ("Content-Type", "chemical/x-mdl-sdfile");
                            ("Access-Control-Allow-Origin", "*");
                            ("Access-Control-Allow-Methods", "GET");
                            ("Access-Control-Allow-Headers", "Content-Type") ];
               body := Text "mock-sdf-content" |},
     [ "https://pubchem.ncbi.nlm.nih.gov/rest/pug/compound/cid/4091/record/SDF?record_type=3d" ]).
Proof.
  destruct (proxy_by_id [ ("cid", "4091") ] "4091" stubPubchem eq_refl eq_refl)
    as [Htrace Hanswer].
  destruct (Hanswer _ eq_refl) as [Hpass _].
  destruct (Hpass eq_refl _ eq_refl) as [Hresponse _].
  rewrite (surjective_pairing (run _ _)), Hresponse, Htrace. reflexivity.
Qed.

(** C7, at the failing input.  The request carries the id 2244 and PubChem
    replies 304 Not Modified, a non-2xx status.  The proxy makes its one
    fetch and means to answer with the upstream status, but a response
    with a body cannot be made with status 304: [NextResponse.json]
    throws, and the outer [catch] answers HTTP 500, not 304. *)
Theorem not_modified_is_not_relayed :
  upstream_fails (notModified [] (Sdf.pubchemUrl "2244")) = true
  /\ run (Sdf.GET [ ("cid", "2244") ]) notModified
     = (Return (jsonResponse (JsonError "Failed to fetch SDF data") 500),
        [ "https://pubchem.ncbi.nlm.nih.gov/rest/pug/compound/cid/2244/record/SDF?record_type=3d" ]).
Proof. split; reflexivity. Qed.

(** C8 as worded fails when Cactus cannot be reached: the primary fetch
    fails, and the alternate endpoint is not tried. *)
Lemma retry_claim_fails :
  ~ retry_claim [ ("smiles", "CCO") ] "CCO" unreachable.
Proof.
  intros Hclaim.
  destruct (Hclaim eq_refl eq_refl eq_refl eq_refl) as [Htrace _].
  vm_compute in Htrace. discriminate Htrace.
Qed.

Lemma proxy_retries_once_witness :
  run (Sdf.GET [ ("smiles", "CCO") ]) alternateOnly
  = (Return (Sdf.sdfResponse "mock-sdf-content"),
     [ "https://cactus.nci.nih.gov/chemical/structure/CCO/sdf";
       "https://cactus.nci.nih.gov/chemical/structure/CCO/file?format=sdf" ]).
Proof.
  destruct (proxy_retries_once [ ("smiles", "CCO") ] "CCO" alternateOnly
              eq_refl eq_refl eq_refl)
    as [Hretry _].
  destruct (Hretry {| fstatus := 404; statusText := "Not Found"; text := Some "";
                      json := None |} eq_refl eq_refl)
    as [Htrace Hanswer].
  destruct (Hanswer _ eq_refl) as [Hpass _].
  rewrite (surjective_pairing (run _ _)), (Hpass eq_refl _ eq_refl), Htrace. reflexivity.
Defined.

Lemma resolve_is_deterministic_witness :
  run (Resolve.POST (E := ascii_engine) (named "caffeine")) unreachable
  = run (Resolve.POST (E := ascii_engine) (named "caffeine")) opsinEthanol.
Proof.
  exact (resolve_is_deterministic (E := ascii_engine) (named "caffeine")
           unreachable opsinEthanol eq_refl).
Defined.

Lemma malformed_request_is_500_witness :
  run (Resolve.POST (E := ascii_engine) (Some (JObj [ ("name", JNum 42) ]))) unreachable
  = (Return (jsonResponse (JsonError "Failed to resolve molecule") 500), []).
Proof.
  exact (malformed_request_is_500 (E := ascii_engine) (Some (JObj [ ("name", JNum 42) ]))
           unreachable eq_refl).
Defined.

(** ** From the resolver's URL to the proxy's parameters *)

Module UrlFacts.
Import JsString Url.
Local Open Scope string_scope.

Example searchParams_by_id :
  searchParams "/api/molecule/sdf?cid=4091" = [ ("cid", "4091") ].
Proof. reflexivity. Qed.

Example searchParams_decodes :
  searchParams "/api/molecule/sdf?smiles=C%3DO&&get3d=true&x=a+b#smiles=no"
  = [ ("smiles", "C=O"); ("get3d", "true"); ("x", "a b") ].
Proof. reflexivity. Qed.

Example searchParams_without_query : searchParams "/api/molecule/sdf" = [].
Proof. reflexivity. Qed.

Lemma formDecode_percent a r :
  unreserved a = false -> formDecode (percent a ++ r) = String a (formDecode r).
Proof.
  destruct a as [[] [] [] [] [] [] [] []]; intros H;
    try discriminate H; reflexivity.
Qed.

Lemma formDecode_unreserved a r :
  unreserved a = true -> formDecode (String a r) = String a (formDecode r).
Proof.
  destruct a as [[] [] [] [] [] [] [] []]; intros H;
    try discriminate H; reflexivity.
Qed.

Lemma encode_cons a s :
  encodeURIComponent (String a s)
  = if unreserved a then String a (encodeURIComponent s)
    else percent a ++ encodeURIComponent s.
Proof. reflexivity. Qed.

(** Form decoding undoes [encodeURIComponent]. *)
Lemma formDecode_encode s : formDecode (encodeURIComponent s) = s.
Proof.
  induction s as [| a s IH]; [reflexivity |].
  rewrite encode_cons. destruct (unreserved a) eqn:Ha.
  - rewrite formDecode_unreserved by exact Ha. now rewrite IH.
  - rewrite formDecode_percent by exact Ha. now rewrite IH.
Qed.

Lemma encoded_app x y : encoded (x ++ y) = encoded x && encoded y.
Proof.
  induction x as [| a x IH]; [reflexivity |].
  change (String a x ++ y) with (String a (x ++ y)).
  cbn [encoded]. rewrite IH. now rewrite andb_assoc.
Qed.

Lemma encoded_percent a : encoded (percent a) = true.
Proof. destruct a as [[] [] [] [] [] [] [] []]; reflexivity. Qed.

(** [encodeURIComponent] gives unreserved bytes and percent signs only. *)
Lemma encoded_encode s : encoded (encodeURIComponent s) = true.
Proof.
  induction s as [| a s IH]; [reflexivity |].
  rewrite encode_cons. destruct (unreserved a) eqn:Ha.
  - cbn [encoded]. now rewrite Ha, IH.
  - now rewrite encoded_app, encoded_percent, IH.
Qed.

Lemma occurs_app c x y : occurs c (x ++ y) = occurs c x || occurs c y.
Proof.
  induction x as [| a x IH]; [reflexivity |].
  change (String a x ++ y) with (String a (x ++ y)).
  cbn [occurs]. rewrite IH. now rewrite orb_assoc.
Qed.

(** A byte that is neither unreserved nor the percent sign does not occur
    in encoded text. *)
Lemma occurs_encoded c s :
  unreserved c = false -> isChar "%" c = false -> encoded s = true -> occurs c s = false.
Proof.
  intros Hc Hp. induction s as [| a s IH]; [reflexivity |].
  cbn [encoded occurs]. intros H. apply andb_true_iff in H as [Ha Hs].
  rewrite (IH Hs), orb_false_r.
  destruct (isChar c a) eqn:Hca; [| reflexivity].
  assert (a = c) as ->.
  { unfold isChar, code in Hca. apply N.eqb_eq in Hca.
    rewrite <- (ascii_N_embedding a), <- (ascii_N_embedding c). now rewrite Hca. }
  rewrite Hc, Hp in Ha. discriminate Ha.
Qed.

Lemma upTo_none stop s : occurs stop s = false -> upTo stop s = s.
Proof.
  induction s as [| a s IH]; [reflexivity |].
  cbn [occurs upTo]. intros H. apply orb_false_iff in H as [Ha Hs].
  now rewrite Ha, (IH Hs).
Qed.

Lemma splitOn_app sep x y :
  occurs sep x = false -> splitOn sep (x ++ String sep y) = x :: splitOn sep y.
Proof.
  induction x as [| a x IH].
  - intros _. change ("" ++ String sep y) with (String sep y).
    cbn [splitOn]. unfold isChar. now rewrite N.eqb_refl.
  - cbn [occurs]. intros H. apply orb_false_iff in H as [Ha Hx].
    change (String a x ++ String sep y) with (String a (x ++ String sep y)).
    cbn [splitOn]. now rewrite Ha, (IH Hx).
Qed.

Lemma splitOn_none sep x : occurs sep x = false -> splitOn sep x = [x].
Proof.
  induction x as [| a x IH]; [reflexivity |].
  cbn [occurs splitOn]. intros H. apply orb_false_iff in H as [Ha Hx].
  now rewrite Ha, (IH Hx).
Qed.

(** The URL the resolver builds from a SMILES is read by the proxy as that
    SMILES, with the 3D flag. *)
(** *** Dot segments *)

Lemma lower_is_mark a c :
  asciiLower a = c -> In c [ "."; "%"; "2" ]%char -> a = c.
Proof.
  intros Hlower Hc.
  destruct Hc as [<- | [<- | [<- | []]]];
    destruct a as [[] [] [] [] [] [] [] []]; vm_compute in Hlower;
    first [reflexivity | discriminate Hlower].
Qed.

Lemma lower_is_e a : asciiLower a = "e"%char -> a = "e"%char \/ a = "E"%char.
Proof.
  destruct a as [[] [] [] [] [] [] [] []]; vm_compute; intros Hlower;
    first [discriminate Hlower | auto].
Qed.

Ltac lower_chars :=
  repeat match goal with
         | H : asciiToLowerCase ?t = EmptyString |- _ =>
             destruct t; [clear H | discriminate H]
         | H : asciiToLowerCase ?t = String _ _ |- _ =>
             destruct t; [discriminate H |];
             cbn [asciiToLowerCase] in H;
             let Ha := fresh "Ha" in
             let Ht := fresh "Ht" in
             injection H as Ha Ht
         | H : asciiLower _ = "e"%char |- _ =>
             apply lower_is_e in H; destruct H as [-> | ->]
         | H : asciiLower _ = _ |- _ =>
             apply lower_is_mark in H; [subst | cbn; auto]
         end.

(** The dot segments, written out. *)
Lemma dotSegment_cases t :
  dotSegment t = true ->
  In t [ "."; "%2e"; "%2E"; "..";
         ".%2e"; ".%2E"; "%2e."; "%2E.";
         "%2e%2e"; "%2e%2E"; "%2E%2e"; "%2E%2E" ].
Proof.
  unfold dotSegment, singleDot, doubleDot. cbv zeta.
  rewrite !orb_true_iff, !String.eqb_eq.
  intros [[-> | H] | [[[-> | H] | H] | H]]; lower_chars; cbn; auto 14.
Qed.

(** [encodeURIComponent] leaves a dot alone and writes nothing else as a
    dot, so what it gives is a dot segment for the texts [.] and [..]
    only. *)
Lemma dotSegment_encode s :
  dotSegment (encodeURIComponent s) = String.eqb s "." || String.eqb s "..".
Proof.
  destruct (dotSegment (encodeURIComponent s)) eqn:Hdots.
  - apply dotSegment_cases in Hdots.
    assert (Hs : In s [ "."; ".." ]).
    { rewrite <- (formDecode_encode s).
      cbn [In] in Hdots.
      repeat (destruct Hdots as [<- | Hdots]; [cbn; auto |]). destruct Hdots. }
    destruct Hs as [<- | [<- | []]]; reflexivity.
  - symmetry. apply orb_false_iff.
    split; apply String.eqb_neq; intros ->; vm_compute in Hdots; discriminate Hdots.
Qed.

(** A segment that ends in [.json] is no dot segment. *)
Lemma dotSegment_json e : dotSegment (e ++ ".json") = false.
Proof.
  destruct (dotSegment (e ++ ".json")) eqn:Hdots; [| reflexivity].
  assert (Hj : occurs "j" (e ++ ".json") = true).
  { rewrite occurs_app. apply orb_true_iff. right. reflexivity. }
  apply dotSegment_cases in Hdots. cbn [In] in Hdots.
  repeat (destruct Hdots as [Heq | Hdots]; [rewrite <- Heq in Hj; discriminate Hj |]).
  destruct Hdots.
Qed.

(** What [encodeURIComponent] gives holds none of the characters that end
    a path segment or the path. *)
Lemma encode_confined s :
  let segment := encodeURIComponent s in
  occurs "/" segment = false /\ occurs "\" segment = false
  /\ occurs "?" segment = false /\ occurs "#" segment = false.
Proof.
  cbv zeta. pose proof (encoded_encode s) as Henc.
  repeat split; apply occurs_encoded; auto.
Qed.

Lemma searchParams_sdfBySmiles s :
  searchParams (Resolve.sdfBySmiles (encodeURIComponent s))
  = [ ("smiles", s); ("get3d", "true") ].
Proof.
  pose proof (encoded_encode s) as Henc.
  set (e := encodeURIComponent s) in *.
  assert (Hhash : occurs "#" e = false) by (apply occurs_encoded; auto).
  assert (Hamp : occurs "&" e = false) by (apply occurs_encoded; auto).
  assert (Heq : occurs "=" e = false) by (apply occurs_encoded; auto).
  unfold searchParams, query, Resolve.sdfBySmiles.
  rewrite upTo_none
    by (rewrite !occurs_app, Hhash; reflexivity).
  change (after "?" ("/api/molecule/sdf?smiles=" ++ e ++ "&get3d=true"))
    with ("smiles=" ++ e ++ "&get3d=true").
  replace ("smiles=" ++ e ++ "&get3d=true")
    with (("smiles=" ++ e) ++ String "&" "get3d=true") by reflexivity.
  rewrite splitOn_app by (rewrite occurs_app, Hamp; reflexivity).
  change (splitOn "&" "get3d=true") with ["get3d=true"].
  change ("smiles=" ++ e) with (String "s" (String "m" (String "i" (String "l"
          (String "e" (String "s" (String "=" e))))))).
  cbn [filter isEmpty negb map]. unfold pairOf.
  change (upTo "=" (String "s" (String "m" (String "i" (String "l"
          (String "e" (String "s" (String "=" e)))))))) with "smiles".
  change (after "=" (String "s" (String "m" (String "i" (String "l"
          (String "e" (String "s" (String "=" e)))))))) with e.
  unfold e. rewrite formDecode_encode. reflexivity.
Qed.

End UrlFacts.

(** ** More on the resolve route *)

Section ResolveExtras.

Context {E : Engine}.
Import Resolve.

(** Every catalog entry is named as its key, has a SMILES, and points to
    the proxy by its own id. *)
Lemma known_entries key known :
  own knownCompounds key = Some known ->
  name known = key
  /\ truthy (smiles known) = true
  /\ exists c, cid known = JNum (Qmake c 1)
               /\ sdf3d_url known
                  = ("/api/molecule/sdf?cid=" ++ NilZero.string_of_int (Z.to_int c))%string.
Proof.
  unfold knownCompounds. cbn [own].
  repeat match goal with
         | |- context [String.eqb ?k key] =>
             destruct (String.eqb_spec k key) as [<- | _];
             [intros [= <-]; repeat split; eexists; split; reflexivity |]
         end.
  discriminate.
Qed.

(** What the OPSIN step answers with, when it answers. *)
Lemma opsinStep_shape originalName nm up history :
  exists done,
    run_from (try_catch (opsinStep originalName (JStr nm)) (fun _ => pure tt)) up history
    = (done, history ++ [opsinUrl (JsString.encodeURIComponent nm)])
    /\ (done = Normal tt
        \/ exists v i e,
             done = Return (jsonResponse
                              (JsonIdentity (opsinResult originalName v i e)) 200)
             /\ truthy v = true
             /\ (forall s, v = JStr s -> e = JsString.encodeURIComponent s)).
Proof.
  rewrite run_from_try_catch. unfold opsinStep.
  cbn [encodeURIComponent ToString pure bind]. rewrite run_fetch.
  destruct (up history _) as [|r]; [eexists; split; [reflexivity | auto] |].
  destruct (ok r); [| eexists; split; [reflexivity | auto]].
  unfold response_json.
  destruct (json r) as [data |]; [| eexists; split; [reflexivity | auto]].
  cbn [pure bind].
  destruct data as [ | | | | | fields]; try (eexists; split; [reflexivity | auto]).
  unfold get_prop at 1. cbn [pure bind].
  destruct (truthy _) eqn:Htruthy; [| eexists; split; [reflexivity | auto]].
  unfold get_prop. cbn [pure bind]. unfold encodeURIComponent.
  destruct (ToString _) as [t |] eqn:Htext;
    eexists; (split; [reflexivity |]); [right | left; reflexivity].
  do 3 eexists. split; [reflexivity | split; [exact Htruthy |]].
  intros s Hs. rewrite Hs in Htext. cbn [ToString] in Htext. congruence.
Qed.

Lemma cir_accepts_nonempty o trimmed :
  cir_accepts o = Some trimmed -> JsString.isEmpty trimmed = false.
Proof.
  destruct o as [| r]; [discriminate |]. cbn [cir_accepts].
  destruct (ok r); [| discriminate]. destruct (text r) as [b |]; [| discriminate].
  cbv zeta. destruct (JsString.isEmpty (JsString.trim b)) eqn:Hb; cbn [negb andb].
  - discriminate.
  - destruct (negb _); [intros [= <-]; exact Hb | discriminate].
Qed.

(** The identities the handler can return for a request named [n]: a
    catalog entry, what the OPSIN step builds from a truthy SMILES, what
    the CIR step builds from a non-empty trimmed body, or the mock. *)
Lemma identity_cases requestJson n up identity :
  requestName requestJson = Some n ->
  fst (run (POST requestJson) up) = Return (jsonResponse (JsonIdentity identity) 200) ->
  own knownCompounds (JsString.trim n) = Some identity
  \/ (exists v i e,
        identity = opsinResult (JsString.trim n) v i e
        /\ truthy v = true
        /\ (forall s, v = JStr s -> e = JsString.encodeURIComponent s))
  \/ (exists trimmed,
        identity = cirResult (JsString.trim n) trimmed
        /\ JsString.isEmpty trimmed = false)
  \/ identity = mockResult (JsString.trim n).
Proof.
  intros Hname. rewrite (POST_named _ _ _ Hname).
  destruct (object_get knownCompounds (JsString.trim n)) as [known | m |] eqn:Hget.
  - unfold resolve. rewrite Hget. cbn. intros [= <-].
    left. exact (object_get_own _ _ _ Hget).
  - unfold resolve. rewrite Hget. unfold return_json, NextResponse_json.
    cbn [hasJsonText]. destruct (String.eqb m "__proto__"); cbn; discriminate.
  - rewrite (resolve_miss _ _ _ Hget).
    destruct (opsinStep_shape (JsString.trim n) (normalizedName (JsString.trim n)) up [])
      as (done & -> & [-> | (v & i & e & -> & Hv & He)]).
    + cbn [after_bind app]. rewrite run_from_bind, cirStep_run.
      destruct (cir_accepts _) as [trimmed |] eqn:Hcir; cbn; intros [= <-].
      * right; right; left. exists trimmed. split; [reflexivity |].
        exact (cir_accepts_nonempty _ _ Hcir).
      * right; right; right. reflexivity.
    + cbn. intros [= <-]. right; left. exists v, i, e. auto.
Qed.

(** The identity carries the name that was asked for, trimmed. *)
Theorem identity_echoes_name requestJson n up identity :
  requestName requestJson = Some n ->
  fst (run (POST requestJson) up) = Return (jsonResponse (JsonIdentity identity) 200) ->
  name identity = JsString.trim n.
Proof.
  intros Hname Hrun.
  destruct (identity_cases _ _ _ _ Hname Hrun)
    as [Hknown | [(v & i & e & -> & _) | [(trimmed & -> & _) | ->]]]; try reflexivity.
  exact (proj1 (known_entries _ _ Hknown)).
Qed.

Lemma prefix_append p x : prefix p (p ++ x) = true.
Proof.
  induction p as [| a p IH]; [destruct x; reflexivity |].
  change (String a p ++ x)%string with (String a (p ++ x)%string).
  cbn [prefix]. destruct (ascii_dec a a); [exact IH | congruence].
Qed.

(** Every identity has a truthy SMILES and a structure URL on the proxy
    route. *)
Theorem identity_has_structure requestJson n up identity :
  requestName requestJson = Some n ->
  fst (run (POST requestJson) up) = Return (jsonResponse (JsonIdentity identity) 200) ->
  truthy (smiles identity) = true
  /\ prefix "/api/molecule/sdf?" (sdf3d_url identity) = true.
Proof.
  intros Hname Hrun.
  destruct (identity_cases _ _ _ _ Hname Hrun)
    as [Hknown | [(v & i & e & -> & Hv & _) | [(trimmed & -> & Ht) | ->]]].
  - destruct (known_entries _ _ Hknown) as (_ & Hsmiles & c & _ & ->).
    split; [exact Hsmiles |].
    exact (prefix_append "/api/molecule/sdf?" ("cid=" ++ _)).
  - split; [exact Hv |].
    exact (prefix_append "/api/molecule/sdf?" ("smiles=" ++ e ++ "&get3d=true")).
  - split; [cbn; now rewrite Ht |].
    exact (prefix_append "/api/molecule/sdf?" ("smiles=" ++ _ ++ "&get3d=true")).
  - split; reflexivity.
Qed.

(** Every request is answered, no exception leaves the handler, and the
    status is 200 or 500: 500 for a request without a string name, and for
    a name that is a function of [Object.prototype]. *)
Theorem every_request_is_answered requestJson up :
  exists answer,
    fst (run (POST requestJson) up)
    = Return (jsonResponse answer
                match requestName requestJson with
                | Some n => if inheritedFunction (JsString.trim n) then 500 else 200
                | None => 500
                end)%Z.
Proof.
  destruct (requestName requestJson) as [n |] eqn:Hname.
  - exact (named_request_is_answered requestJson n up Hname).
  - unfold run, POST.
    destruct (unnamed_request_throws requestJson resolve Hname) as [e ->].
    eexists; reflexivity.
Qed.

(** A name that [Object.prototype] holds passes the catalog test without
    being in the catalog: no provider is asked, and the answer is no
    identity. *)
Theorem inherited_name_asks_nobody requestJson n up :
  requestName requestJson = Some n ->
  inherited (JsString.trim n) = true ->
  snd (run (POST requestJson) up) = []
  /\ forall identity st,
       fst (run (POST requestJson) up)
       <> Return (jsonResponse (JsonIdentity identity) st).
Proof.
  intros Hname Hproto. rewrite (POST_inherited _ _ _ Hname Hproto).
  split; [reflexivity |].
  intros identity st. destruct (String.eqb _ "__proto__"); discriminate.
Qed.

(** A name that the catalog test finds, in the catalog or inherited, makes
    the handler fetch nothing. *)
Lemma found_name_asks_nobody requestJson n up :
  requestName requestJson = Some n ->
  object_get knownCompounds (JsString.trim n) <> Absent ->
  snd (run (POST requestJson) up) = [].
Proof.
  intros Hname Hfound.
  destruct (object_get knownCompounds (JsString.trim n)) as [known | m |] eqn:Hget.
  - rewrite (POST_named _ _ _ Hname). unfold resolve. rewrite Hget. reflexivity.
  - apply object_get_inherited in Hget.
    now rewrite (POST_inherited _ _ _ Hname Hget).
  - congruence.
Qed.

(** The handler fetches at most twice, and only from OPSIN and from the
    NIH resolver. *)
Theorem resolve_contacts_fixed_hosts requestJson up :
  (length (snd (run (POST requestJson) up)) <= 2)%nat
  /\ Forall (fun url =>
               prefix "https://opsin.ch.cam.ac.uk/opsin/" url = true
               \/ prefix "https://cactus.nci.nih.gov/chemical/structure/" url = true)
            (snd (run (POST requestJson) up)).
Proof.
  destruct (requestName requestJson) as [n |] eqn:Hname.
  - destruct (object_get knownCompounds (JsString.trim n)) as [known | m |] eqn:Hget.
    + rewrite (found_name_asks_nobody _ _ up Hname) by congruence. cbn. auto.
    + rewrite (found_name_asks_nobody _ _ up Hname) by congruence. cbn. auto.
    + assert (Hopsin : forall e, prefix "https://opsin.ch.cam.ac.uk/opsin/" (opsinUrl e) = true)
        by (intros e; exact (prefix_append _ (e ++ ".json"))).
      assert (Hcir : forall e, prefix "https://cactus.nci.nih.gov/chemical/structure/"
                                      (cirUrl e) = true)
        by (intros e; exact (prefix_append _ (e ++ "/smiles"))).
      destruct (miss_outcomes requestJson n up Hname Hget) as [(identity & _ & ->) | ->];
        cbn [snd length]; (split; [lia |]);
        repeat apply Forall_cons; try apply Forall_nil; auto.
  - unfold run, POST.
    destruct (unnamed_request_throws requestJson resolve Hname) as [e ->].
    cbn. auto.
Qed.

(** Where the requested name ends up in the upstream URLs.  Every URL the
    handler fetches is OPSIN's or the resolver's pattern around the encoded
    name, which holds no slash, backslash, question mark or hash.  OPSIN's
    segment, the name followed by [.json], is never a dot segment.  The
    resolver's segment is the name alone, and it is a dot segment exactly
    when the name sent is [.] or [..]: these two names, and no others,
    leave their place in the path. *)
Theorem only_dot_names_leave_the_segment requestJson up :
  Forall (fun url =>
            exists n,
              requestName requestJson = Some n
              /\ let sent := normalizedName (JsString.trim n) in
                 let segment := JsString.encodeURIComponent sent in
                 Url.occurs "/" segment = false
                 /\ Url.occurs "\" segment = false
                 /\ Url.occurs "?" segment = false
                 /\ Url.occurs "#" segment = false
                 /\ ((url = opsinUrl segment
                      /\ Url.dotSegment (segment ++ ".json") = false)
                     \/ (url = cirUrl segment
                         /\ Url.dotSegment segment
                            = (String.eqb sent "." || String.eqb sent ".."))))
         (snd (run (POST requestJson) up)).
Proof.
  destruct (requestName requestJson) as [n |] eqn:Hname.
  - destruct (object_get knownCompounds (JsString.trim n)) as [known | m |] eqn:Hget.
    + rewrite (found_name_asks_nobody _ _ up Hname) by congruence. apply Forall_nil.
    + rewrite (found_name_asks_nobody _ _ up Hname) by congruence. apply Forall_nil.
    + destruct (UrlFacts.encode_confined (normalizedName (JsString.trim n)))
        as (Hslash & Hback & Hquery & Hhash).
      pose proof (UrlFacts.dotSegment_json
                    (JsString.encodeURIComponent (normalizedName (JsString.trim n))))
        as Hjson.
      pose proof (UrlFacts.dotSegment_encode (normalizedName (JsString.trim n))) as Hdots.
      destruct (miss_outcomes requestJson n up Hname Hget) as [(identity & _ & ->) | ->];
        cbn [snd]; repeat apply Forall_cons; try apply Forall_nil;
        exists n; (split; [reflexivity |]); cbv zeta; repeat (split; [assumption |]);
        [left | left | right]; split; solve [reflexivity | assumption].
  - unfold run, POST.
    destruct (unnamed_request_throws requestJson resolve Hname) as [e ->].
    apply Forall_nil.
Qed.

End ResolveExtras.

(** ** Trimming twice *)

Module TrimFacts.
Import JsString.
Local Open Scope string_scope.

Lemma length_app (x y : string) : String.length (x ++ y) = (String.length x + String.length y)%nat.
Proof.
  induction x as [| a x IH]; [reflexivity |].
  change (String a x ++ y) with (String a (x ++ y)). cbn [String.length]. now rewrite IH.
Qed.

Lemma trimStart_length s : (String.length (trimStart s) <= String.length s)%nat.
Proof.
  destruct (JsStringFacts.trimStart_split s) as (w & Hs & _).
  rewrite Hs at 2. rewrite length_app. lia.
Qed.

Lemma shorter_is_other (s t : string) : (String.length t < String.length s)%nat -> t <> s.
Proof. intros Hlt ->. lia. Qed.

(** A string that [trimStart] leaves alone does not start with white
    space, and neither does any of its prefixes. *)
Lemma trimStart_prefix x w : trimStart (x ++ w) = x ++ w -> trimStart x = x.
Proof.
  destruct x as [| a [| b [| c x]]]; [reflexivity | | |].
  - change (String a "" ++ w) with (String a w). intros H.
    cbn [trimStart]. destruct (ws1 a) eqn:Ha; [| reflexivity].
    exfalso. revert H. cbn [trimStart]. rewrite Ha.
    apply shorter_is_other. pose proof (trimStart_length w). cbn. lia.
  - change (String a (String b "") ++ w) with (String a (String b w)). intros H.
    cbn [trimStart]. destruct (ws1 a) eqn:Ha.
    + exfalso. revert H. cbn [trimStart]. rewrite Ha.
      apply shorter_is_other. pose proof (trimStart_length (String b w)). cbn in *. lia.
    + destruct (ws2 a b) eqn:Hab; [| reflexivity].
      exfalso. revert H. cbn [trimStart]. rewrite Ha, Hab.
      apply shorter_is_other. pose proof (trimStart_length w). cbn. lia.
  - change (String a (String b (String c x)) ++ w)
      with (String a (String b (String c (x ++ w)))). intros H.
    cbn [trimStart]. destruct (ws1 a) eqn:Ha.
    + exfalso. revert H. cbn [trimStart]. rewrite Ha.
      apply shorter_is_other.
      pose proof (trimStart_length (String b (String c (x ++ w)))). cbn in *. lia.
    + destruct (ws2 a b) eqn:Hab.
      * exfalso. revert H. cbn [trimStart]. rewrite Ha, Hab.
        apply shorter_is_other.
        pose proof (trimStart_length (String c (x ++ w))). cbn in *. lia.
      * destruct (ws3 a b c) eqn:Habc; [| reflexivity].
        exfalso. revert H. cbn [trimStart]. rewrite Ha, Hab, Habc.
        apply shorter_is_other. pose proof (trimStart_length (x ++ w)). cbn. lia.
Qed.

Lemma trimStart_idempotent_len n : forall s,
  (String.length s <= n)%nat -> trimStart (trimStart s) = trimStart s.
Proof.
  induction n as [| n IH]; intros s Hlen.
  - destruct s; [reflexivity | cbn in Hlen; lia].
  - destruct (JsStringFacts.trimStart_cases s) as
      [(a & r & -> & _ & Heq)
      |[(a & b & r & -> & _ & Heq)
       |[(a & b & c & r & -> & _ & Heq) | Heq]]];
      rewrite Heq; try (apply IH; cbn in Hlen; lia).
    exact Heq.
Qed.

Lemma trimStart_idempotent s : trimStart (trimStart s) = trimStart s.
Proof. apply (trimStart_idempotent_len (String.length s)). lia. Qed.

(** What [trimEnd] removes is white space from its first byte on. *)
Lemma trimEnd_suffix s : exists w, s = trimEnd s ++ w /\ isEmpty (trimStart w) = true.
Proof.
  induction s as [| a r IH].
  - exists "". auto.
  - cbn [trimEnd]. destruct (isEmpty (trimStart (String a r))) eqn:Hempty.
    + exists (String a r). auto.
    + destruct IH as (w & Hr & Hw). exists w.
      change (String a (trimEnd r) ++ w) with (String a (trimEnd r ++ w)).
      rewrite <- Hr. auto.
Qed.

Lemma ws2_not_ws1 a b : ws2 a b = true -> ws1 a = false.
Proof.
  unfold ws1, ws2. cbv zeta. intros H. apply andb_true_iff in H as [Ha _].
  apply N.eqb_eq in Ha. rewrite Ha. reflexivity.
Qed.

Lemma ws3_not_ws1_ws2 a b c : ws3 a b c = true -> ws1 a = false /\ ws2 a b = false.
Proof.
  unfold ws1, ws2, ws3. cbv zeta. intros H.
  assert (Ha : code a = 225%N \/ code a = 226%N \/ code a = 227%N \/ code a = 239%N).
  { bool_to_prop. intuition. }
  destruct Ha as [-> | [-> | [-> | ->]]]; split; reflexivity.
Qed.

Lemma trimStart_app_ws_len n : forall x w,
  (String.length x <= n)%nat ->
  isEmpty (trimStart x) = true -> trimStart (x ++ w) = trimStart w.
Proof.
  induction n as [| n IH]; intros x w Hlen Hx.
  - destruct x; [reflexivity | cbn in Hlen; lia].
  - destruct (JsStringFacts.trimStart_cases x) as
      [(a & r & -> & Hws & Heq)
      |[(a & b & r & -> & Hws & Heq)
       |[(a & b & c & r & -> & Hws & Heq) | Heq]]].
    + change (String a r ++ w) with (String a (r ++ w)).
      cbn [trimStart]. rewrite Hws. rewrite Heq in Hx.
      apply IH; [cbn in Hlen; lia | exact Hx].
    + change (String a (String b r) ++ w) with (String a (String b (r ++ w))).
      cbn [trimStart]. rewrite (ws2_not_ws1 _ _ Hws), Hws. rewrite Heq in Hx.
      apply IH; [cbn in Hlen; lia | exact Hx].
    + change (String a (String b (String c r)) ++ w)
        with (String a (String b (String c (r ++ w)))).
      destruct (ws3_not_ws1_ws2 _ _ _ Hws) as [H1 H2].
      cbn [trimStart]. rewrite H1, H2, Hws. rewrite Heq in Hx.
      apply IH; [cbn in Hlen; lia | exact Hx].
    + rewrite Heq in Hx. destruct x; [reflexivity | discriminate].
Qed.

Lemma trimEnd_idempotent s : trimEnd (trimEnd s) = trimEnd s.
Proof.
  induction s as [| a r IH]; [reflexivity |].
  cbn [trimEnd]. destruct (isEmpty (trimStart (String a r))) eqn:Hempty; [reflexivity |].
  cbn [trimEnd]. rewrite IH.
  destruct (isEmpty (trimStart (String a (trimEnd r)))) eqn:Hcut; [| reflexivity].
  exfalso. destruct (trimEnd_suffix r) as (w & Hr & Hw).
  assert (Hall : trimStart (String a r) = trimStart w).
  { rewrite Hr at 1.
    change (String a (trimEnd r ++ w)) with (String a (trimEnd r) ++ w).
    apply (trimStart_app_ws_len (String.length (String a (trimEnd r)))); [lia | exact Hcut]. }
  rewrite Hall, Hw in Hempty. discriminate.
Qed.

(** [trim] is idempotent. *)
Lemma trim_idempotent s : trim (trim s) = trim s.
Proof.
  unfold trim.
  destruct (trimEnd_suffix (trimStart s)) as (w & Hsplit & _).
  assert (Hkeep : trimStart (trimEnd (trimStart s)) = trimEnd (trimStart s)).
  { apply (trimStart_prefix _ w). rewrite <- Hsplit. apply trimStart_idempotent. }
  rewrite Hkeep. apply trimEnd_idempotent.
Qed.

End TrimFacts.

(** White space around the requested name changes nothing: the handler
    runs as it does on the trimmed name. *)
Theorem surrounding_space_is_ignored {E : Engine} requestJson n up :
  requestName requestJson = Some n ->
  run (Resolve.POST requestJson) up = run (Resolve.POST (named (JsString.trim n))) up.
Proof.
  intros Hname.
  rewrite (POST_named _ _ _ Hname).
  rewrite (POST_named (named (JsString.trim n)) (JsString.trim n) up eq_refl).
  now rewrite TrimFacts.trim_idempotent.
Qed.

(** ** More on the structure-file proxy *)

Section SdfExtras.

Import Sdf.

Lemma after_catch_relay up label o history :
  (String.length "Unhandled request" < String.length label)%nat ->
  exists response,
    after_catch failed up (relay label o, history) = (Return response, history)
    /\ body response <> JsonError "Unhandled request".
Proof.
  intros Hlabel. rewrite after_catch_relay_cases.
  eexists; split; [reflexivity |].
  destruct o as [| r]; [discriminate |]. cbn [relay].
  destruct (ok r); [destruct (text r) | destruct (Response_accepts _)];
    cbn [body Sdf.sdfResponse jsonResponse]; try discriminate.
  intros [= H]. apply (f_equal String.length) in H.
  rewrite TrimFacts.length_app in H. lia.
Qed.

(** An id takes the request: whatever else the query holds, the proxy
    runs as on the id alone. *)
Theorem proxy_id_wins searchParams cid up :
  get searchParams "cid" = Some cid ->
  JsString.isEmpty cid = false ->
  run (GET searchParams) up = run (GET [ ("cid", cid) ]) up.
Proof.
  intros Hcid Hnonempty.
  rewrite (GET_by_id_run searchParams cid up Hcid Hnonempty).
  symmetry. apply GET_by_id_run; [| exact Hnonempty].
  unfold get. cbn [own]. now rewrite String.eqb_refl.
Qed.

(** A 2xx answer of the primary Cactus endpoint ends the request: one
    fetch, and the body passed on. *)
Theorem proxy_no_retry_after_success searchParams smiles up primary sdfData :
  let id := JsString.encodeURIComponent smiles in
  let want3d := match get searchParams "get3d" with
                | Some s => String.eqb s "true"
                | None => false
                end in
  present (get searchParams "cid") = false ->
  get searchParams "smiles" = Some smiles ->
  JsString.isEmpty smiles = false ->
  up [] (cactusUrl id want3d) = Resolved primary ->
  ok primary = true ->
  text primary = Some sdfData ->
  run (GET searchParams) up = (Return (sdfResponse sdfData), [cactusUrl id want3d]).
Proof.
  intros id want3d Hcid Hsmiles Hnonempty Hprimary Hok Htext.
  rewrite (GET_by_smiles_run _ _ _ Hcid Hsmiles Hnonempty), bySmiles_run.
  fold id want3d. rewrite Hprimary, Hok. cbn [relay]. rewrite Hok, Htext. reflexivity.
Qed.

(** The three ways the handler runs. *)
Lemma GET_cases searchParams up :
  run (GET searchParams) up
  = (Return (jsonResponse (JsonError "cid or smiles parameter required") 400), [])
  \/ (exists cid,
        get searchParams "cid" = Some cid
        /\ run (GET searchParams) up
           = after_catch failed up
               (relay "Failed to fetch SDF: " (up [] (pubchemUrl cid)), [pubchemUrl cid]))
  \/ (exists smiles,
        get searchParams "smiles" = Some smiles
        /\ run (GET searchParams) up
           = after_catch failed up
               (run_from (bySmiles smiles (get searchParams "get3d")) up [])).
Proof.
  destruct (present (get searchParams "cid")) eqn:Hcid.
  - right; left. destruct (get searchParams "cid") as [c |] eqn:Hc; [| discriminate].
    exists c. split; [reflexivity |]. apply GET_by_id_run; [exact Hc |].
    cbn [present] in Hcid. now apply negb_true_iff in Hcid.
  - destruct (present (get searchParams "smiles")) eqn:Hsmiles.
    + right; right.
      destruct (get searchParams "smiles") as [s |] eqn:Hs; [| discriminate].
      exists s. split; [reflexivity |]. apply GET_by_smiles_run; [exact Hcid | exact Hs |].
      cbn [present] in Hsmiles. now apply negb_true_iff in Hsmiles.
    + left. unfold run, GET. cbv zeta. rewrite Hcid, Hsmiles. reflexivity.
Qed.

(** What the SMILES block leaves behind: one or two fetches, of the two
    Cactus endpoints, and a [return] or a [throw]. *)
Lemma bySmiles_cases smiles get3d up :
  let id := JsString.encodeURIComponent smiles in
  let want3d := match get3d with Some s => String.eqb s "true" | None => false end in
  exists done trace,
    run_from (bySmiles smiles get3d) up [] = (done, trace)
    /\ (trace = [cactusUrl id want3d] \/ trace = [cactusUrl id want3d; altUrl id want3d])
    /\ (done = Throw FetchError
        \/ exists o, done = relay "Failed to fetch SDF from Cactus: " o).
Proof.
  intros id want3d. rewrite bySmiles_run. fold id want3d. cbn [app].
  destruct (up [] _) as [| r1]; [do 2 eexists; split; [reflexivity | auto] |].
  destruct (ok r1); do 2 eexists; (split; [reflexivity |]); split; eauto.
Qed.

(** The handler always answers, and never with its last line: the
    "Unhandled request" response cannot be reached. *)
Theorem proxy_always_answers searchParams up :
  exists response,
    fst (run (GET searchParams) up) = Return response
    /\ body response <> JsonError "Unhandled request".
Proof.
  destruct (GET_cases searchParams up) as [-> | [(cid & _ & ->) | (smiles & _ & ->)]].
  - eexists; split; [reflexivity | discriminate].
  - destruct (after_catch_relay up "Failed to fetch SDF: " (up [] (pubchemUrl cid))
                                [pubchemUrl cid]) as (response & -> & Hbody); [cbn; lia |].
    exists response. auto.
  - destruct (bySmiles_cases smiles (get searchParams "get3d") up)
      as (done & trace & -> & _ & [-> | (o & ->)]).
    + eexists; split; [reflexivity | discriminate].
    + destruct (after_catch_relay up "Failed to fetch SDF from Cactus: " o trace)
        as (response & -> & Hbody); [cbn; lia |].
      exists response. auto.
Qed.

(** The proxy fetches at most twice, and only from PubChem's compound
    records and from the NIH resolver. *)
Theorem proxy_contacts_fixed_hosts searchParams up :
  (length (snd (run (GET searchParams) up)) <= 2)%nat
  /\ Forall (fun url =>
               prefix "https://pubchem.ncbi.nlm.nih.gov/rest/pug/compound/cid/" url = true
               \/ prefix "https://cactus.nci.nih.gov/chemical/structure/" url = true)
            (snd (run (GET searchParams) up)).
Proof.
  assert (Hpubchem : forall c,
             prefix "https://pubchem.ncbi.nlm.nih.gov/rest/pug/compound/cid/"
                    (pubchemUrl c) = true)
    by (intros c; exact (prefix_append _ (c ++ "/record/SDF?record_type=3d"))).
  assert (Hcactus : forall id w,
             prefix "https://cactus.nci.nih.gov/chemical/structure/" (cactusUrl id w) = true)
    by (intros id w; exact (prefix_append _ (id ++ "/sdf" ++ _))).
  assert (Halt : forall id w,
             prefix "https://cactus.nci.nih.gov/chemical/structure/" (altUrl id w) = true)
    by (intros id w; exact (prefix_append _ (id ++ "/file?format=sdf" ++ _))).
  destruct (GET_cases searchParams up) as [-> | [(cid & _ & ->) | (smiles & _ & ->)]].
  - cbn. auto.
  - destruct (after_catch_relay up "Failed to fetch SDF: " (up [] (pubchemUrl cid))
                                [pubchemUrl cid]) as (response & -> & _); [cbn; lia |].
    cbn [snd length]. split; [lia |]. repeat apply Forall_cons; try apply Forall_nil; auto.
  - destruct (bySmiles_cases smiles (get searchParams "get3d") up)
      as (done & trace & -> & Htrace & Hdone).
    assert (Hsnd : snd (after_catch failed up (done, trace)) = trace).
    { destruct Hdone as [-> | (o & ->)]; [reflexivity |].
      destruct (after_catch_relay up "Failed to fetch SDF from Cactus: " o trace)
        as (response & -> & _); [cbn; lia | reflexivity]. }
    rewrite Hsnd.
    destruct Htrace as [-> | ->]; cbn [length]; (split; [lia |]);
      repeat apply Forall_cons; try apply Forall_nil; auto.
Qed.

(** When no upstream can be reached, a request with a parameter is answered
    HTTP 500 after a single fetch: a rejected fetch is not retried. *)
Theorem proxy_unreachable_is_500 searchParams up :
  (forall history url, up history url = Rejected) ->
  present (get searchParams "cid") || present (get searchParams "smiles") = true ->
  exists url,
    run (GET searchParams) up
    = (Return (jsonResponse (JsonError "Failed to fetch SDF data") 500), [url]).
Proof.
  intros Hdown Hparam.
  destruct (GET_cases searchParams up) as [Hrun | [(cid & _ & ->) | (smiles & _ & ->)]].
  - exfalso. apply orb_true_iff in Hparam. revert Hrun.
    unfold run, GET. rewrite run_from_try_catch. cbv zeta.
    destruct (present (get searchParams "cid")) eqn:Hcid.
    + destruct (get searchParams "cid") as [c |] eqn:Hc; [| discriminate].
      cbn [present] in Hcid. apply negb_true_iff in Hcid.
      cbn [negb andb whenPresent]. rewrite Hcid.
      rewrite run_from_bind, byCid_run, after_bind_relay, Hdown. discriminate.
    + destruct Hparam as [Hp | Hp]; [discriminate |]. rewrite Hp in *.
      destruct (get searchParams "smiles") as [s |] eqn:Hs; [| discriminate].
      cbn [present] in Hp. apply negb_true_iff in Hp.
      cbn [negb andb]. rewrite run_from_bind.
      assert (Hskip : run_from (whenPresent (get searchParams "cid") byCid) up []
                      = (Normal tt, [])).
      { destruct (get searchParams "cid") as [c |]; [| reflexivity].
        cbn [present] in Hcid. apply negb_false_iff in Hcid.
        cbn [whenPresent]. rewrite Hcid. reflexivity. }
      rewrite Hskip. cbn [after_bind whenPresent]. rewrite Hp.
      rewrite run_from_bind, bySmiles_run, Hdown. discriminate.
  - rewrite Hdown. eexists; reflexivity.
  - rewrite bySmiles_run, Hdown. eexists; reflexivity.
Qed.

(** Where the caller's parameter ends up in the upstream URL.  An id is
    put into PubChem's record URL as it was given.  A SMILES is encoded:
    its segment of the Cactus URL holds no slash, backslash, question
    mark or hash, and it is a dot segment exactly when the SMILES is [.]
    or [..]; these two texts, and no others, leave their place in the
    path. *)
Theorem only_dot_smiles_leave_the_segment searchParams up :
  Forall (fun url =>
            (exists cid, get searchParams "cid" = Some cid /\ url = pubchemUrl cid)
            \/ (exists smiles want3d,
                  get searchParams "smiles" = Some smiles
                  /\ let segment := JsString.encodeURIComponent smiles in
                     (url = cactusUrl segment want3d \/ url = altUrl segment want3d)
                     /\ Url.occurs "/" segment = false
                     /\ Url.occurs "\" segment = false
                     /\ Url.occurs "?" segment = false
                     /\ Url.occurs "#" segment = false
                     /\ Url.dotSegment segment
                        = (String.eqb smiles "." || String.eqb smiles "..")))
         (snd (run (GET searchParams) up)).
Proof.
  destruct (GET_cases searchParams up) as [-> | [(cid & Hcid & ->) | (smiles & Hsmiles & ->)]].
  - apply Forall_nil.
  - rewrite after_catch_relay_cases.
    cbn [snd]. apply Forall_cons; [| apply Forall_nil]. left. eauto.
  - destruct (bySmiles_cases smiles (get searchParams "get3d") up)
      as (done & trace & -> & Htrace & Hdone).
    assert (Hsnd : snd (after_catch failed up (done, trace)) = trace).
    { destruct Hdone as [-> | (o & ->)]; [reflexivity |].
      now rewrite after_catch_relay_cases. }
    rewrite Hsnd.
    destruct (UrlFacts.encode_confined smiles) as (Hslash & Hback & Hquery & Hhash).
    pose proof (UrlFacts.dotSegment_encode smiles) as Hdots.
    destruct Htrace as [-> | ->];
      repeat apply Forall_cons; try apply Forall_nil; right;
      exists smiles; eexists; (split; [exact Hsmiles |]); cbv zeta;
      (split; [eauto |]); repeat split; assumption.
Qed.

End SdfExtras.

(** ** From the resolver to the proxy *)

Section Handover.

Context {E : Engine}.
Import Resolve.

(** The proxy, given the URL built from a SMILES, asks Cactus for that
    SMILES with 3D coordinates. *)
Lemma proxy_on_smiles_url s up :
  JsString.isEmpty s = false ->
  exists rest,
    snd (run (Sdf.GET (Url.searchParams (sdfBySmiles (JsString.encodeURIComponent s)))) up)
    = Sdf.cactusUrl (JsString.encodeURIComponent s) true :: rest.
Proof.
  intros Hs. rewrite UrlFacts.searchParams_sdfBySmiles.
  rewrite (GET_by_smiles_run [ ("smiles", s); ("get3d", "true") ] s up eq_refl eq_refl Hs).
  destruct (bySmiles_cases s (Sdf.get [ ("smiles", s); ("get3d", "true") ] "get3d") up)
    as (done & trace & -> & Htrace & Hdone).
  assert (Hsnd : snd (after_catch Sdf.failed up (done, trace)) = trace).
  { destruct Hdone as [-> | (o & ->)]; [reflexivity |].
    destruct (after_catch_relay up "Failed to fetch SDF from Cactus: " o trace)
      as (response & -> & _); [cbn; lia | reflexivity]. }
  rewrite Hsnd. destruct Htrace as [-> | ->]; eexists; reflexivity.
Qed.

(** The structure URL of an identity without id, fetched from the proxy,
    makes the proxy ask Cactus for the very SMILES of that identity, with
    3D coordinates. *)
Theorem structure_url_reaches_cactus requestJson n up identity s up' :
  requestName requestJson = Some n ->
  fst (run (POST requestJson) up) = Return (jsonResponse (JsonIdentity identity) 200) ->
  cid identity = Undefined ->
  smiles identity = JStr s ->
  exists rest,
    snd (run (Sdf.GET (Url.searchParams (sdf3d_url identity))) up')
    = Sdf.cactusUrl (JsString.encodeURIComponent s) true :: rest.
Proof.
  intros Hname Hrun Hcid Hsmiles.
  destruct (identity_cases _ _ _ _ Hname Hrun)
    as [Hknown | [(v & i & e & -> & Hv & He) | [(trimmed & -> & Ht) | ->]]].
  - destruct (known_entries _ _ Hknown) as (_ & _ & c & Hc & _). congruence.
  - cbn [smiles opsinResult] in Hsmiles. subst v. cbn [sdf3d_url opsinResult].
    rewrite (He s eq_refl). apply proxy_on_smiles_url.
    cbn [truthy] in Hv. now apply negb_true_iff in Hv.
  - cbn [smiles cirResult] in Hsmiles. injection Hsmiles as <-.
    apply proxy_on_smiles_url. exact Ht.
  - cbn [smiles mockResult] in Hsmiles. injection Hsmiles as <-.
    apply proxy_on_smiles_url. reflexivity.
Qed.

(** The structure URL of a catalog entry, fetched from the proxy, makes
    the proxy ask PubChem for the record of the entry's own id, and for
    nothing else. *)
Theorem catalog_url_reaches_pubchem key known up :
  own knownCompounds key = Some known ->
  exists c,
    cid known = JNum (Qmake c 1)
    /\ snd (run (Sdf.GET (Url.searchParams (sdf3d_url known))) up)
       = [ Sdf.pubchemUrl (NilZero.string_of_int (Z.to_int c)) ].
Proof.
  unfold knownCompounds. cbn [own].
  repeat match goal with
         | |- context [String.eqb ?k key] =>
             destruct (String.eqb_spec k key) as [<- | _];
             [intros [= <-]; eexists; split; [reflexivity |];
              match goal with
              | |- snd (run (Sdf.GET ?ps) _) = [Sdf.pubchemUrl ?c] =>
                  rewrite (GET_by_id_run ps c up eq_refl eq_refl);
                  destruct (after_catch_relay up "Failed to fetch SDF: "
                              (up [] (Sdf.pubchemUrl c)) [Sdf.pubchemUrl c])
                    as (response & -> & _); [cbn; lia | reflexivity]
              end |]
         end.
  discriminate.
Qed.

(** Two different SMILES never share a structure URL. *)
Theorem structure_urls_differ s1 s2 :
  s1 <> s2 ->
  sdfBySmiles (JsString.encodeURIComponent s1) <> sdfBySmiles (JsString.encodeURIComponent s2).
Proof.
  intros Hdiff Hurl. apply Hdiff. apply (f_equal Url.searchParams) in Hurl.
  rewrite !UrlFacts.searchParams_sdfBySmiles in Hurl. congruence.
Qed.

End Handover.

(** ** The chart registration guard *)

Module ChartFacts.

Lemma registered_stays (windows : list bool) :
  ChartConfig.calls windows
    {| ChartConfig.isRegistered := true;
       ChartConfig.registerCalls := [ChartConfig.components] |}
  = {| ChartConfig.isRegistered := true;
       ChartConfig.registerCalls := [ChartConfig.components] |}.
Proof.
  induction windows as [| w ws IH]; [reflexivity |].
  unfold ChartConfig.calls in *. cbn [fold_left].
  destruct w; exact IH.
Qed.

(** However often [registerChartJS] is called, [ChartJS.register] runs
    once if some call saw a window and never otherwise, and the flag tells
    which. *)
Theorem registerChartJS_registers_once (windows : list bool) :
  ChartConfig.calls windows ChartConfig.loaded
  = if existsb (fun hasWindow => hasWindow) windows
    then {| ChartConfig.isRegistered := true;
            ChartConfig.registerCalls := [ChartConfig.components] |}
    else ChartConfig.loaded.
Proof.
  induction windows as [| w ws IH]; [reflexivity |].
  destruct w.
  - exact (registered_stays ws).
  - exact IH.
Qed.

Import ChartConfigAsync.

Lemma async_registered_stays (windows : list bool) :
  steps (awaited windows)
    {| isRegistered := true; registerCalls := [ChartConfig.components]; waiting := 0 |}
  = {| isRegistered := true; registerCalls := [ChartConfig.components]; waiting := 0 |}.
Proof.
  induction windows as [| w ws IH]; [reflexivity |].
  unfold steps in *. cbn [awaited fold_left].
  destruct w; exact IH.
Qed.

(** The guard with the dynamic import registers once too, as long as each
    call is awaited before the next one starts. *)
Theorem awaited_calls_register_once (windows : list bool) :
  steps (awaited windows) loaded
  = if existsb (fun hasWindow => hasWindow) windows
    then {| isRegistered := true; registerCalls := [ChartConfig.components]; waiting := 0 |}
    else loaded.
Proof.
  induction windows as [| w ws IH]; [reflexivity |].
  destruct w.
  - exact (async_registered_stays ws).
  - exact IH.
Qed.

Lemma begin_all n : forall m,
  isRegistered m = false ->
  steps (repeat (Begin true) n) m
  = {| isRegistered := false; registerCalls := registerCalls m; waiting := n + waiting m |}.
Proof.
  induction n as [| n IH]; intros m Hflag.
  - destruct m; cbn in *. now subst.
  - unfold steps in *. cbn [repeat fold_left step]. rewrite Hflag. cbn [negb andb].
    rewrite IH by reflexivity. cbn. f_equal. lia.
Qed.

Lemma finish_all n : forall m,
  waiting m = n ->
  registerCalls (steps (repeat Finish n) m)
  = registerCalls m ++ repeat ChartConfig.components n.
Proof.
  induction n as [| n IH]; intros m Hwait.
  - cbn. now rewrite app_nil_r.
  - unfold steps in *. cbn [repeat fold_left step]. rewrite Hwait.
    rewrite IH by reflexivity. cbn [registerCalls repeat].
    rewrite <- app_assoc. reflexivity.
Qed.

(** Calls that start before an earlier one has passed its [await] all
    pass the flag test: [n] overlapping calls run [ChartJS.register] [n]
    times. *)
Theorem overlapping_calls_register_each (n : nat) :
  registerCalls (steps (overlapping n) loaded) = repeat ChartConfig.components n.
Proof.
  unfold overlapping, steps. rewrite fold_left_app.
  change (fold_left step (repeat (Begin true) n) loaded)
    with (steps (repeat (Begin true) n) loaded).
  rewrite begin_all by reflexivity.
  change (fold_left step (repeat Finish n) ?m) with (steps (repeat Finish n) m).
  rewrite finish_all; [reflexivity | cbn; lia].
Qed.

End ChartFacts.

(** ** The filter bar *)

Module FilterFacts.
Import FilterBar.

Lemma same_eq a b : same a b = true <-> a = b.
Proof. destruct a, b; cbn; split; congruence. Qed.

Lemma includes_In cats cat : includes cats cat = true <-> In cat cats.
Proof.
  unfold includes. rewrite existsb_exists. split.
  - intros (x & Hin & Hsame). apply same_eq in Hsame. now subst.
  - intros Hin. exists cat. split; [exact Hin | now apply same_eq].
Qed.

Lemma includes_app l1 l2 c : includes (l1 ++ l2) c = includes l1 c || includes l2 c.
Proof. unfold includes. apply existsb_app. Qed.

Lemma includes_cons x l c : includes (x :: l) c = same c x || includes l c.
Proof. reflexivity. Qed.

Lemma includes_without l cat c :
  includes (filter (fun x => negb (same x cat)) l) c = negb (same c cat) && includes l c.
Proof.
  induction l as [| x l IH]; [now rewrite andb_false_r |].
  cbn [filter]. destruct (same x cat) eqn:Hx; cbn [negb];
    rewrite ?includes_cons, IH;
    destruct (same c x) eqn:Hcx, (same c cat) eqn:Hcc; cbn [negb andb orb];
    try reflexivity;
    apply same_eq in Hcx; subst; congruence.
Qed.

(** A click on a category flips that category and leaves the other two
    as they were. *)
Theorem toggle_flips_one filters cat c :
  includes (riskCategories (toggleRisk filters cat)) c
  = if same c cat then negb (includes (riskCategories filters) cat)
    else includes (riskCategories filters) c.
Proof.
  unfold toggleRisk. cbv zeta. cbn [riskCategories].
  destruct (includes (riskCategories filters) cat) eqn:Hcat.
  - rewrite includes_without. destruct (same c cat); reflexivity.
  - rewrite includes_app. unfold includes at 2. cbn [existsb]. rewrite orb_false_r.
    destruct (same c cat) eqn:Hc; [| now rewrite orb_false_r].
    apply same_eq in Hc. subst. now rewrite Hcat.
Qed.

Lemma click_keeps_NoDup filters c :
  NoDup (riskCategories filters) -> NoDup (riskCategories (click filters c)).
Proof.
  intros Hnodup. destruct c as [cat | |]; cbn [click].
  - unfold toggleRisk. cbv zeta. cbn [riskCategories].
    destruct (includes (riskCategories filters) cat) eqn:Hcat.
    + now apply NoDup_filter.
    + apply NoDup_app; [exact Hnodup | repeat constructor; intros [] | ].
      intros x Hx [<- | []]. apply includes_In in Hx. congruence.
  - constructor.
  - repeat constructor; cbn; intuition discriminate.
Qed.

Lemma clicks_keep_NoDup clicks : forall filters,
  NoDup (riskCategories filters) ->
  NoDup (riskCategories (fold_left click clicks filters)).
Proof.
  induction clicks as [| c clicks IH]; intros filters Hnodup; [exact Hnodup |].
  cbn [fold_left]. apply IH, click_keeps_NoDup, Hnodup.
Qed.

Lemma NoDup_length cats :
  NoDup cats ->
  length cats
  = (b2n (includes cats Low) + b2n (includes cats Medium) + b2n (includes cats High))%nat.
Proof.
  induction 1 as [| x l Hnotin Hnodup IH]; [reflexivity |].
  assert (Hx : includes l x = false).
  { destruct (includes l x) eqn:Hin; [| reflexivity].
    apply includes_In in Hin. contradiction. }
  cbn [length]. rewrite IH. unfold includes in *. cbn [existsb].
  destruct x; cbn [same orb]; rewrite Hx; cbn [b2n]; lia.
Qed.

(** The bar never lists a category twice, so the count it compares with 3
    is exact: after any clicks, from a state that lists none twice, the
    bar reports active filters exactly when there is a search text or
    some category is switched off. *)
Theorem count_tells_selection start clicks :
  NoDup (riskCategories start) ->
  let filters := fold_left click clicks start in
  hasActiveFilters filters
  = negb (JsString.isEmpty (searchText filters))
    || negb (includes (riskCategories filters) Low
             && includes (riskCategories filters) Medium
             && includes (riskCategories filters) High).
Proof.
  intros Hnodup filters.
  pose proof (clicks_keep_NoDup clicks start Hnodup) as Hkept. fold filters in Hkept.
  unfold hasActiveFilters. f_equal.
  rewrite (NoDup_length _ Hkept).
  destruct (includes (riskCategories filters) Low),
           (includes (riskCategories filters) Medium),
           (includes (riskCategories filters) High); reflexivity.
Qed.

End FilterFacts.

(** ** The home page *)

Section HomeFacts.

Import FilterBar.

Variable number : Type.
Variable lt ge : number -> number -> bool.
Variable n3_3 n6_6 : number.
Context {E : Engine}.

Lemma filter_all {A} (p : A -> bool) l : (forall x, p x = true) -> filter p l = l.
Proof.
  intros Hall. induction l as [| x l IH]; [reflexivity |].
  cbn [filter]. now rewrite Hall, IH.
Qed.

Lemma filter_none {A} (p : A -> bool) l : (forall x, p x = false) -> filter p l = [].
Proof.
  intros Hnone. induction l as [| x l IH]; [reflexivity |].
  cbn [filter]. now rewrite Hnone.
Qed.

(** When the three categories are selected, in whatever order the clicks
    have left them, and there is no search text, every compound is shown,
    whatever its score; when no category is selected none is shown,
    whatever the search text. *)
Theorem show_all_and_clear_all (compounds : list (Home.Compound number))
    (filters : FilterState) :
  (includes (riskCategories filters) Low = true ->
   includes (riskCategories filters) Medium = true ->
   includes (riskCategories filters) High = true ->
   searchText filters = "" ->
   Home.filteredCompounds number lt n3_3 n6_6 compounds filters = compounds)
  /\ (riskCategories filters = [] ->
      Home.filteredCompounds number lt n3_3 n6_6 compounds filters = []).
Proof.
  split.
  - intros Hlow Hmedium Hhigh Htext.
    apply filter_all. intros c. unfold Home.shown. cbv zeta. rewrite Htext.
    cbn [JsString.isEmpty orb]. rewrite andb_true_r.
    destruct (Home.cat number lt n3_3 n6_6 c); assumption.
  - intros Hnone. apply filter_none. intros c. unfold Home.shown. cbv zeta.
    rewrite Hnone. reflexivity.
Qed.

Lemma categories_cover (compounds : list (Home.Compound number)) :
  (Home.inCategory number lt n3_3 n6_6 compounds Low
   + Home.inCategory number lt n3_3 n6_6 compounds Medium
   + Home.inCategory number lt n3_3 n6_6 compounds High
   = length compounds)%nat.
Proof.
  unfold Home.inCategory.
  induction compounds as [| c l IH]; [reflexivity |].
  cbn [filter length]. destruct (Home.cat number lt n3_3 n6_6 c); cbn [same length]; lia.
Qed.

(** When [>=] is the negation of [<] on the scores (no score is NaN) and
    a score below 3.3 is below 6.6, the three counters count the
    categories of the row filter, and they add up to the total. *)
Theorem counters_count_categories (compounds : list (Home.Compound number)) :
  (forall x t, ge x t = negb (lt x t)) ->
  (forall x, lt x n3_3 = true -> lt x n6_6 = true) ->
  Home.lowRisk number lt n3_3 compounds = Home.inCategory number lt n3_3 n6_6 compounds Low
  /\ Home.mediumRisk number lt ge n3_3 n6_6 compounds
     = Home.inCategory number lt n3_3 n6_6 compounds Medium
  /\ Home.highRisk number ge n6_6 compounds
     = Home.inCategory number lt n3_3 n6_6 compounds High
  /\ (Home.lowRisk number lt n3_3 compounds
      + Home.mediumRisk number lt ge n3_3 n6_6 compounds
      + Home.highRisk number ge n6_6 compounds
      = Home.total number compounds)%nat.
Proof.
  intros Hge Hmono.
  assert (Hlow : Home.lowRisk number lt n3_3 compounds
                 = Home.inCategory number lt n3_3 n6_6 compounds Low).
  { unfold Home.lowRisk, Home.inCategory. f_equal. apply filter_ext. intros c.
    unfold Home.cat. destruct (lt (Home.riskScore number c) n3_3); [reflexivity |].
    destruct (lt (Home.riskScore number c) n6_6); reflexivity. }
  assert (Hmed : Home.mediumRisk number lt ge n3_3 n6_6 compounds
                 = Home.inCategory number lt n3_3 n6_6 compounds Medium).
  { unfold Home.mediumRisk, Home.inCategory. f_equal. apply filter_ext. intros c.
    unfold Home.cat. rewrite Hge.
    destruct (lt (Home.riskScore number c) n3_3); [reflexivity |].
    destruct (lt (Home.riskScore number c) n6_6); reflexivity. }
  assert (Hhigh : Home.highRisk number ge n6_6 compounds
                  = Home.inCategory number lt n3_3 n6_6 compounds High).
  { unfold Home.highRisk, Home.inCategory. f_equal. apply filter_ext. intros c.
    unfold Home.cat. rewrite Hge.
    destruct (lt (Home.riskScore number c) n3_3) eqn:H3.
    - now rewrite (Hmono _ H3).
    - destruct (lt (Home.riskScore number c) n6_6); reflexivity. }
  repeat split; try assumption.
  rewrite Hlow, Hmed, Hhigh. apply categories_cover.
Qed.

End HomeFacts.

(** ** The further theorems at concrete inputs *)

Lemma identity_echoes_name_witness :
  name (Resolve.cirResult "ethanol" "CCO") = "ethanol".
Proof.
  exact (identity_echoes_name (E := ascii_engine) (named " ethanol ") " ethanol " cirEthanol
           (Resolve.cirResult "ethanol" "CCO") eq_refl eq_refl).
Defined.

Lemma identity_has_structure_witness :
  truthy (smiles (Resolve.mockResult "caffeine")) = true
  /\ prefix "/api/molecule/sdf?" (sdf3d_url (Resolve.mockResult "caffeine")) = true.
Proof.
  exact (identity_has_structure (E := ascii_engine) (named "caffeine") "caffeine" unreachable
           (Resolve.mockResult "caffeine") eq_refl eq_refl).
Defined.

Lemma inherited_name_asks_nobody_witness :
  snd (run (Resolve.POST (E := ascii_engine) (named " toString ")) opsinEthanol) = [].
Proof.
  exact (proj1 (inherited_name_asks_nobody (E := ascii_engine) (named " toString ")
                  " toString " opsinEthanol eq_refl eq_refl)).
Defined.

Lemma surrounding_space_is_ignored_witness :
  run (Resolve.POST (E := ascii_engine) (named "  ethanol ")) opsinEthanol
  = run (Resolve.POST (E := ascii_engine) (named "ethanol")) opsinEthanol.
Proof.
  exact (surrounding_space_is_ignored (E := ascii_engine) (named "  ethanol ") "  ethanol "
           opsinEthanol eq_refl).
Defined.

Lemma structure_url_reaches_cactus_witness :
  exists rest,
    snd (run (Sdf.GET (Url.searchParams "/api/molecule/sdf?smiles=CCO&get3d=true"))
             cactusEthanol)
    = "https://cactus.nci.nih.gov/chemical/structure/CCO/sdf?get3d=true" :: rest.
Proof.
  exact (structure_url_reaches_cactus (E := ascii_engine) (named "caffeine") "caffeine"
           unreachable (Resolve.mockResult "caffeine") "CCO" cactusEthanol
           eq_refl eq_refl eq_refl eq_refl).
Defined.

Lemma catalog_url_reaches_pubchem_witness :
  snd (run (Sdf.GET (Url.searchParams "/api/molecule/sdf?cid=4091")) stubPubchem)
  = [ "https://pubchem.ncbi.nlm.nih.gov/rest/pug/compound/cid/4091/record/SDF?record_type=3d" ].
Proof.
  destruct (catalog_url_reaches_pubchem "Metformin" _ stubPubchem eq_refl)
    as (c & Hc & Htrace).
  injection Hc as <-. exact Htrace.
Defined.

Lemma structure_urls_differ_witness :
  Resolve.sdfBySmiles (JsString.encodeURIComponent "C=O")
  <> Resolve.sdfBySmiles (JsString.encodeURIComponent "C#O").
Proof.
  exact (structure_urls_differ "C=O" "C#O" ltac:(discriminate)).
Defined.

Lemma proxy_id_wins_witness :
  run (Sdf.GET [ ("smiles", "CCO"); ("get3d", "true"); ("cid", "4091") ]) stubPubchem
  = run (Sdf.GET [ ("cid", "4091") ]) stubPubchem.
Proof.
  exact (proxy_id_wins [ ("smiles", "CCO"); ("get3d", "true"); ("cid", "4091") ] "4091"
           stubPubchem eq_refl eq_refl).
Defined.

Lemma proxy_no_retry_after_success_witness :
  run (Sdf.GET [ ("smiles", "CCO"); ("get3d", "true") ]) cactusEthanol
  = (Return (Sdf.sdfResponse "mock-sdf-content"),
     [ "https://cactus.nci.nih.gov/chemical/structure/CCO/sdf?get3d=true" ]).
Proof.
  exact (proxy_no_retry_after_success [ ("smiles", "CCO"); ("get3d", "true") ] "CCO"
           cactusEthanol
           {| fstatus := 200; statusText := "OK"; text := Some "mock-sdf-content";
              json := None |}
           "mock-sdf-content" eq_refl eq_refl eq_refl eq_refl eq_refl eq_refl).
Defined.

Lemma proxy_unreachable_is_500_witness :
  exists url,
    run (Sdf.GET [ ("smiles", "CCO") ]) unreachable
    = (Return (jsonResponse (JsonError "Failed to fetch SDF data") 500), [url]).
Proof.
  exact (proxy_unreachable_is_500 [ ("smiles", "CCO") ] unreachable
           (fun _ _ => eq_refl) eq_refl).
Defined.

Lemma empty_parameters_are_400_witness :
  run (Sdf.GET [ ("cid", ""); ("smiles", "") ]) stubPubchem
  = (Return (jsonResponse (JsonError "cid or smiles parameter required") 400), []).
Proof.
  exact (empty_parameters_are_400 [ ("cid", ""); ("smiles", "") ] stubPubchem
           eq_refl eq_refl).
Defined.

Lemma count_tells_selection_witness :
  FilterBar.hasActiveFilters
    (fold_left FilterBar.click
       [ FilterBar.Toggle FilterBar.Medium; FilterBar.Toggle FilterBar.Medium ]
       {| FilterBar.riskCategories := [ FilterBar.Low; FilterBar.Medium; FilterBar.High ];
          FilterBar.searchText := "" |})
  = false.
Proof.
  refine (FilterFacts.count_tells_selection
            {| FilterBar.riskCategories :=
                 [ FilterBar.Low; FilterBar.Medium; FilterBar.High ];
               FilterBar.searchText := "" |}
            [ FilterBar.Toggle FilterBar.Medium; FilterBar.Toggle FilterBar.Medium ] _).
  repeat constructor; cbn; intuition discriminate.
Defined.

Lemma show_all_and_clear_all_witness :
  Home.filteredCompounds nat Nat.ltb 33%nat 66%nat (E := ascii_engine) fourCompounds
    {| FilterBar.riskCategories := [ FilterBar.Low; FilterBar.High; FilterBar.Medium ];
       FilterBar.searchText := "" |}
  = fourCompounds
  /\ Home.filteredCompounds nat Nat.ltb 33%nat 66%nat (E := ascii_engine) fourCompounds
       {| FilterBar.riskCategories := []; FilterBar.searchText := "glipron" |}
     = [].
Proof.
  split.
  - exact (proj1 (show_all_and_clear_all nat Nat.ltb 33%nat 66%nat (E := ascii_engine)
                    fourCompounds
                    {| FilterBar.riskCategories :=
                         [ FilterBar.Low; FilterBar.High; FilterBar.Medium ];
                       FilterBar.searchText := "" |})
             eq_refl eq_refl eq_refl eq_refl).
  - exact (proj2 (show_all_and_clear_all nat Nat.ltb 33%nat 66%nat (E := ascii_engine)
                    fourCompounds
                    {| FilterBar.riskCategories := []; FilterBar.searchText := "glipron" |})
             eq_refl).
Defined.

Lemma counters_count_categories_witness :
  (Home.lowRisk nat Nat.ltb 33%nat fourCompounds
   + Home.mediumRisk nat Nat.ltb (fun x t => negb (Nat.ltb x t)) 33%nat 66%nat fourCompounds
   + Home.highRisk nat (fun x t => negb (Nat.ltb x t)) 66%nat fourCompounds
   = 4)%nat.
Proof.
  refine (proj2 (proj2 (proj2
            (counters_count_categories nat Nat.ltb (fun x t => negb (Nat.ltb x t)) 33%nat 66%nat
               fourCompounds (fun _ _ => eq_refl) _)))).
  intros x Hlow. apply Nat.ltb_lt in Hlow. apply Nat.ltb_lt. lia.
Defined.
